(** * Sendly Python SDK: resource facades

    A shallow embedding of [sendly/resources/campaigns.py], [contacts.py],
    [verify.py] and [media.py], and the properties of the request
    construction and response reshaping they perform.

    Layout:
    - [Py]: the Python values that flow through the facades (the [Any] of
      the type hints), exceptions, and the dictionary operations used.
    - [Http]: the transport the facades talk to.  [sendly/utils/http.py] is
      not part of the sources, so the transport is a record of operations
      over an abstract client state.
    - typed response objects ([sendly/types.py] is not part of the sources:
      a typed object is the record of the keyword arguments its constructor
      receives; pydantic's field validation is a parameter, [validator],
      as is the [MediaFile] constructor, whose failure the code handles).
    - one module per resource class, sync and async.
    - the theorems. *)

From Stdlib Require Import ZArith String Ascii SpecFloat.
From stdpp Require Import base option gmap strings list fin_maps.

#[local] Set Warnings "-register-all".
#[local] Open Scope string_scope.
#[local] Open Scope Z_scope.

(* ===================================================================== *)
(** ** Python values and exceptions *)
(* ===================================================================== *)

Module Py.

(** What [json.loads] can produce, and what the facades put in request
    bodies.  A JSON number with a fraction or exponent is an IEEE double. *)
Inductive value : Type :=
| VNone
| VBool (b : bool)
| VInt (n : Z)
| VFloat (f : spec_float)
| VStr (s : string)
| VList (l : list value)
| VDict (d : gmap string value).

Abbreviation dict := (gmap string value).

(** The exceptions that can leave a facade method.  [SendlyError] keeps
    its [__cause__] (the [raise ... from e] of media.py).  [Remote] stands
    for whatever the transport raises (its typed errors live in
    [sendly/errors.py] and [sendly/utils/http.py]). *)
Inductive exn : Type :=
| KeyError (key : string)
| TypeError
| AttributeError
| PydanticValidationError (msg : string)
| SendlyError (message code : string) (status_code : Z) (cause : option exn)
| Remote (kind message : string) (status_code : Z).

Definition result (A : Type) : Type := (exn + A)%type.

Definition ok {A} (a : A) : result A := inr a.
Definition raise {A} (e : exn) : result A := inl e.

#[global] Instance result_ret : MRet result := λ A, inr.
#[global] Instance result_bind : MBind result := λ A B f m,
  match m with inl e => inl e | inr a => f a end.
#[global] Instance result_fmap : FMap result := λ A B f m,
  match m with inl e => inl e | inr a => inr (f a) end.

(** [str(e)] *)
Definition str_exn (e : exn) : string :=
  match e with
  | KeyError k => "'" ++ k ++ "'"
  | TypeError => "TypeError"
  | AttributeError => "AttributeError"
  | PydanticValidationError msg => msg
  | SendlyError message _ _ _ => message
  | Remote _ message _ => message
  end.

(** Truth value testing, [if x:]. *)
Class Truthy (A : Type) := truthy : A → bool.

#[global] Instance Z_truthy : Truthy Z := λ n, negb (n =? 0).
#[global] Instance string_truthy : Truthy string := λ s,
  match s with EmptyString => false | String _ _ => true end.
#[global] Instance list_truthy {A} : Truthy (list A) := λ l,
  match l with [] => false | _ :: _ => true end.
#[global] Instance dict_truthy {A} : Truthy (gmap string A) := λ d,
  match map_to_list d with [] => false | _ :: _ => true end.
#[global] Instance float_truthy : Truthy spec_float := λ f,
  match f with S754_zero _ => false | _ => true end.
(** An [Optional[T]] argument: [None] is falsy. *)
#[global] Instance option_truthy {A} `{Truthy A} : Truthy (option A) := λ o,
  match o with None => false | Some a => truthy a end.
#[global] Instance value_truthy : Truthy value := λ v,
  match v with
  | VNone => false
  | VBool b => b
  | VInt n => truthy n
  | VFloat f => truthy f
  | VStr s => truthy s
  | VList l => truthy l
  | VDict d => truthy d
  end.

(** [data[key]] for a string key. *)
Definition subscr (data : value) (key : string) : result value :=
  match data with
  | VDict d => match d !! key with Some v => ok v | None => raise (KeyError key) end
  | _ => raise TypeError
  end.

(** [data.get(key, default)]. *)
Definition dict_get_or (data : value) (key : string) (dflt : value) : result value :=
  match data with
  | VDict d => ok (default dflt (d !! key))
  | _ => raise AttributeError
  end.

(** [data.get(key)]. *)
Definition dict_get (data : value) (key : string) : result value :=
  dict_get_or data key VNone.

Definition is_str (key : string) (v : value) : bool :=
  match v with VStr s => bool_decide (s = key) | _ => false end.

(** [key in data] for a string key: key membership on a dict, element
    membership on a list, substring test on a string. *)
Definition contains (key : string) (data : value) : result bool :=
  match data with
  | VDict d => ok (bool_decide (is_Some (d !! key)))
  | VList l => ok (existsb (is_str key) l)
  | VStr s => ok (bool_decide (is_Some (String.index 0 key s)))
  | _ => raise TypeError
  end.

Fixpoint chars (s : string) : list value :=
  match s with
  | EmptyString => []
  | String c s' => VStr (String c EmptyString) :: chars s'
  end.

(** [for x in data]: the elements of a list, the keys of a dict, the
    characters of a string.  (Python yields dict keys in insertion order,
    which a finite map does not record; the keys are the same.) *)
Definition iter (data : value) : result (list value) :=
  match data with
  | VList l => ok l
  | VDict d => ok (VStr <$> (map_to_list d).*1)
  | VStr s => ok (chars s)
  | _ => raise TypeError
  end.

(** [len(data)]. *)
Definition len (data : value) : result nat :=
  length <$> iter data.

(** [[f(x) for x in xs]]: the first exception ends the comprehension. *)
Fixpoint comprehension {A B} (f : A → result B) (xs : list A) : result (list B) :=
  match xs with
  | [] => ok []
  | x :: xs' => y ← f x; ys ← comprehension f xs'; ok (y :: ys)
  end.

End Py.
Import Py.

(* ===================================================================== *)
(** ** The transport *)
(* ===================================================================== *)

Module Http.

(** The arguments of [HttpClient.request(method, path, json=, params=)].
    A keyword that is not passed, or passed as [None], is [None]. *)
Record Request : Type := mkRequest {
  method : string;
  path : string;
  json : option dict;
  params : option dict;
}.

(** A [BinaryIO].  [name] is the object's [name] attribute: [None] when the
    object has no such attribute (an [io.BytesIO]), and otherwise the
    attribute's value, whatever it is: the path string of a file opened by
    path, the integer of one opened by descriptor, or [VNone] when the
    attribute is set to [None]. *)
Record BinaryIO : Type := mkBinaryIO {
  name : option value;
  content : list Byte.byte;
}.

(** One entry of the [files=] mapping of httpx:
    [(filename, file, content_type)].  The filename is whatever the facade
    puts there, a string or not. *)
Record FilePart : Type := mkFilePart {
  filename : value;
  file : BinaryIO;
  content_type : string;
}.

(** The arguments of [client.post(url, files=, headers=)]. *)
Record Post : Type := mkPost {
  url : string;
  files : gmap string FilePart;
  post_headers : gmap string string;
}.

(** An [httpx.Response], as far as the facades look at it. *)
Record Response : Type := mkResponse {
  status_code : Z;
  headers : gmap string string;
  body : list Byte.byte;
}.

(** [HttpClient] and [AsyncHttpClient] ([sendly/utils/http.py], not part
    of the sources): the attributes and methods the facades use, over a
    client state [S] (rate-limit bookkeeping, connection, and the service
    behind it).  A method maps the state before the call to an outcome and
    the state after it.  [client_headers_get key default] is
    [self.client.headers.get(key, default)]: the lookup belongs to the
    [httpx] headers object (which matches header names regardless of case),
    so it is taken as the client gives it. *)
Record Client (S : Type) : Type := mkClient {
  api_key : string;
  client_headers_get : string → string → string;
  request : Request → S → result value * S;
  client_post : Post → S → result Response * S;
  _update_rate_limit_info : gmap string string → S → S;
  _parse_response : Response → S → result value * S;
}.
#[global] Arguments api_key {S}.
#[global] Arguments client_headers_get {S}.
#[global] Arguments request {S}.
#[global] Arguments client_post {S}.
#[global] Arguments _update_rate_limit_info {S}.
#[global] Arguments _parse_response {S}.

(** *** Blocking code: state and exception passing *)

Definition M (S A : Type) : Type := S → result A * S.

#[global] Instance M_ret {S} : MRet (M S) := λ A a s, (ok a, s).
#[global] Instance M_bind {S} : MBind (M S) := λ A B f m s,
  match m s with
  | (inl e, s') => (inl e, s')
  | (inr a, s') => f a s'
  end.

(** A computation without effect on the client: reshaping. *)
Definition pure {S A} (r : result A) : M S A := λ s, (r, s).

(** A method that only updates the client. *)
Definition modify {S} (f : S → S) : M S unit := λ s, (ok tt, f s).

(** *** Coroutines

    An [async def] body: it runs until it returns, raises, or reaches an
    [await], where it hands an awaitable to the event loop and is resumed
    with its value.  Calls that are not awaited ([Call]) run in place. *)

Inductive awaitable : Type → Type :=
| AwaitRequest (r : Request) : awaitable value
| AwaitPost (p : Post) : awaitable Response.

Inductive direct : Type → Type :=
| UpdateRateLimitInfo (h : gmap string string) : direct unit
| ParseResponse (r : Response) : direct value.

Inductive coro (A : Type) : Type :=
| Return (a : A)
| Raise (e : exn)
| Await {B : Type} (w : awaitable B) (k : B → coro A)
| Call {B : Type} (c : direct B) (k : B → coro A).
#[global] Arguments Return {A}.
#[global] Arguments Raise {A}.
#[global] Arguments Await {A B}.
#[global] Arguments Call {A B}.

Fixpoint coro_bind {A B} (f : A → coro B) (m : coro A) : coro B :=
  match m with
  | Return a => f a
  | Raise e => Raise e
  | Await w k => Await w (λ b, coro_bind f (k b))
  | Call c k => Call c (λ b, coro_bind f (k b))
  end.

#[global] Instance coro_ret : MRet coro := λ A, Return.
#[global] Instance coro_mbind : MBind coro := λ A B, coro_bind.

(** [await x] *)
Definition await {B} (w : awaitable B) : coro B := Await w Return.
Definition call {B} (c : direct B) : coro B := Call c Return.
Definition lift {A} (r : result A) : coro A :=
  match r with inl e => Raise e | inr a => Return a end.

(** What the client does for an awaitable and for a direct call. *)
Definition perform_await {S B} (http : Client S) (w : awaitable B) : M S B :=
  match w with
  | AwaitRequest r => request http r
  | AwaitPost p => client_post http p
  end.

Definition perform_call {S B} (http : Client S) (c : direct B) : M S B :=
  match c with
  | UpdateRateLimitInfo h => modify (_update_rate_limit_info http h)
  | ParseResponse r => _parse_response http r
  end.

(** The event loop driving one coroutine to completion. *)
Fixpoint run_until_complete {S A} (http : Client S) (c : coro A) : M S A :=
  match c with
  | Return a => mret a
  | Raise e => pure (raise e)
  | Await w k => λ s,
      match perform_await http w s with
      | (inl e, s') => (inl e, s')
      | (inr b, s') => run_until_complete http (k b) s'
      end
  | Call d k => λ s,
      match perform_call http d s with
      | (inl e, s') => (inl e, s')
      | (inr b, s') => run_until_complete http (k b) s'
      end
  end.

(** What goes over the wire. *)
Inductive sent : Type :=
| SentRequest (r : Request)
| SentPost (p : Post).

(** A test double: answers every request with [answer], every post with
    [posted], parses with [parse], and records what it is asked to send. *)
Definition recorder (key : string) (hdrs : string → string → string)
    (answer : Request → result value) (posted : Post → result Response)
    (parse : Response → result value) : Client (list sent) :=
  {| api_key := key;
     client_headers_get := hdrs;
     request := λ r log, (answer r, (log ++ [SentRequest r])%list);
     client_post := λ p log, (posted p, (log ++ [SentPost p])%list);
     _update_rate_limit_info := λ _ log, log;
     _parse_response := λ r log, (parse r, log) |}.

End Http.
Import Http.

(* ===================================================================== *)
(** ** Typed response objects *)
(* ===================================================================== *)

(** The pydantic models of [sendly/types.py], which is not part of the
    sources.  Each is the record of the keyword arguments the facades pass
    to its constructor, in the order they pass them; the facades pass
    values taken from the response mapping, so every scalar field is a
    [value].  [fields] lists the scalar attributes by name, for reading an
    attribute back by its name; for a list response, [metadata] lists the
    attributes other than the item collection.  What pydantic does with the
    arguments (reject them, or coerce them to the declared field types) is
    not in these records: it is the [validator] of the section on pydantic
    validation below, and [constructed] is the object the caller gets. *)

(** [getattr(obj, name)], [None] when the object has no such attribute. *)
Definition getattr (attrs : list (string * value)) (field : string) : option value :=
  snd <$> List.find (λ p, String.eqb (fst p) field) attrs.

Module Campaign.
Record t : Type := mk {
  id : value;
  name : value;
  text : value;
  template_id : value;
  contact_list_ids : value;
  status : value;
  recipient_count : value;
  sent_count : value;
  delivered_count : value;
  failed_count : value;
  estimated_credits : value;
  credits_used : value;
  scheduled_at : value;
  timezone : value;
  started_at : value;
  completed_at : value;
  created_at : value;
  updated_at : value;
}.
Definition fields (o : t) : list (string * value) :=
  [("id", id o);
   ("name", name o);
   ("text", text o);
   ("template_id", template_id o);
   ("contact_list_ids", contact_list_ids o);
   ("status", status o);
   ("recipient_count", recipient_count o);
   ("sent_count", sent_count o);
   ("delivered_count", delivered_count o);
   ("failed_count", failed_count o);
   ("estimated_credits", estimated_credits o);
   ("credits_used", credits_used o);
   ("scheduled_at", scheduled_at o);
   ("timezone", timezone o);
   ("started_at", started_at o);
   ("completed_at", completed_at o);
   ("created_at", created_at o);
   ("updated_at", updated_at o)].
End Campaign.

Module CampaignListResponse.
Record t : Type := mk {
  campaigns : list Campaign.t;
  total : value;
  limit : value;
  offset : value;
}.
Definition metadata (o : t) : list (string * value) :=
  [("total", total o);
   ("limit", limit o);
   ("offset", offset o)].
End CampaignListResponse.

Module CampaignPreview.
Record t : Type := mk {
  id : value;
  recipient_count : value;
  estimated_segments : value;
  estimated_credits : value;
  current_balance : value;
  has_enough_credits : value;
  breakdown : value;
}.
Definition fields (o : t) : list (string * value) :=
  [("id", id o);
   ("recipient_count", recipient_count o);
   ("estimated_segments", estimated_segments o);
   ("estimated_credits", estimated_credits o);
   ("current_balance", current_balance o);
   ("has_enough_credits", has_enough_credits o);
   ("breakdown", breakdown o)].
End CampaignPreview.

Module ContactList.
Record t : Type := mk {
  id : value;
  name : value;
  description : value;
  contact_count : value;
  created_at : value;
  updated_at : value;
  contacts : value;
  contacts_total : value;
}.
Definition fields (o : t) : list (string * value) :=
  [("id", id o);
   ("name", name o);
   ("description", description o);
   ("contact_count", contact_count o);
   ("created_at", created_at o);
   ("updated_at", updated_at o);
   ("contacts", contacts o);
   ("contacts_total", contacts_total o)].
End ContactList.

Module ContactListsResponse.
Record t : Type := mk {
  lists : list ContactList.t;
}.
Definition metadata (o : t) : list (string * value) :=
  [].
End ContactListsResponse.

Module Contact.
Record t : Type := mk {
  id : value;
  phone_number : value;
  name : value;
  email : value;
  metadata : value;
  opted_out : value;
  created_at : value;
  updated_at : value;
  lists : value;
}.
Definition fields (o : t) : list (string * value) :=
  [("id", id o);
   ("phone_number", phone_number o);
   ("name", name o);
   ("email", email o);
   ("metadata", metadata o);
   ("opted_out", opted_out o);
   ("created_at", created_at o);
   ("updated_at", updated_at o);
   ("lists", lists o)].
End Contact.

Module ContactListResponse.
Record t : Type := mk {
  contacts : list Contact.t;
  total : value;
  limit : value;
  offset : value;
}.
Definition metadata (o : t) : list (string * value) :=
  [("total", total o);
   ("limit", limit o);
   ("offset", offset o)].
End ContactListResponse.

Module ImportContactsResponse.
Record t : Type := mk {
  imported : value;
  skipped_duplicates : value;
  errors : value;
  total_errors : value;
}.
Definition fields (o : t) : list (string * value) :=
  [("imported", imported o);
   ("skipped_duplicates", skipped_duplicates o);
   ("errors", errors o);
   ("total_errors", total_errors o)].
End ImportContactsResponse.

Module SendVerificationResponse.
Record t : Type := mk {
  id : value;
  status : value;
  phone : value;
  expires_at : value;
  sandbox : value;
  sandbox_code : value;
  message : value;
}.
Definition fields (o : t) : list (string * value) :=
  [("id", id o);
   ("status", status o);
   ("phone", phone o);
   ("expires_at", expires_at o);
   ("sandbox", sandbox o);
   ("sandbox_code", sandbox_code o);
   ("message", message o)].
End SendVerificationResponse.

Module CheckVerificationResponse.
Record t : Type := mk {
  id : value;
  status : value;
  phone : value;
  verified_at : value;
  remaining_attempts : value;
}.
Definition fields (o : t) : list (string * value) :=
  [("id", id o);
   ("status", status o);
   ("phone", phone o);
   ("verified_at", verified_at o);
   ("remaining_attempts", remaining_attempts o)].
End CheckVerificationResponse.

Module Verification.
Record t : Type := mk {
  id : value;
  status : value;
  phone : value;
  delivery_status : value;
  attempts : value;
  max_attempts : value;
  expires_at : value;
  verified_at : value;
  created_at : value;
  sandbox : value;
  app_name : value;
  template_id : value;
  profile_id : value;
}.
Definition fields (o : t) : list (string * value) :=
  [("id", id o);
   ("status", status o);
   ("phone", phone o);
   ("delivery_status", delivery_status o);
   ("attempts", attempts o);
   ("max_attempts", max_attempts o);
   ("expires_at", expires_at o);
   ("verified_at", verified_at o);
   ("created_at", created_at o);
   ("sandbox", sandbox o);
   ("app_name", app_name o);
   ("template_id", template_id o);
   ("profile_id", profile_id o)].
End Verification.

Module VerificationListResponse.
Record t : Type := mk {
  verifications : list Verification.t;
  pagination : value;
}.
Definition metadata (o : t) : list (string * value) :=
  [("pagination", pagination o)].
End VerificationListResponse.


(* ===================================================================== *)
(** ** Request construction helpers *)
(* ===================================================================== *)

(** The type hints of the method signatures. *)
Abbreviation Optional := option (only parsing).
Abbreviation List := list (only parsing).

(** An argument as the value stored in a body or params mapping. *)
Class ToValue (A : Type) := to_value : A → value.
#[global] Instance value_to_value : ToValue value := λ v, v.
#[global] Instance Z_to_value : ToValue Z := VInt.
#[global] Instance string_to_value : ToValue string := VStr.
#[global] Instance dict_to_value : ToValue dict := VDict.
#[global] Instance list_to_value {A} `{ToValue A} : ToValue (list A) := λ l,
  VList (to_value <$> l).
#[global] Instance option_to_value {A} `{ToValue A} : ToValue (option A) := λ o,
  match o with None => VNone | Some a => to_value a end.

(** [x is not None] *)
Definition is_not_None {A} (x : option A) : bool :=
  match x with None => false | Some _ => true end.

(** [if cond: d[key] = x] *)
Definition set_if {A} `{ToValue A} (cond : bool) (key : string) (x : A) (d : dict) : dict :=
  if cond then <[key := to_value x]> d else d.

(** [d if d else None] *)
Definition or_None (d : dict) : option dict :=
  if truthy d then Some d else None.

(* ===================================================================== *)
(** ** campaigns.py *)
(* ===================================================================== *)

Module CampaignsResource.
Section methods.
Context {S : Type} (self : Client S).

Definition _transform_campaign (data : value) : result Campaign.t :=
  id ← subscr data "id";
  name ← subscr data "name";
  text ← subscr data "text";
  template_id ← dict_get data "template_id";
  contact_list_ids ← dict_get_or data "contact_list_ids" (VList []);
  status ← subscr data "status";
  recipient_count ← dict_get_or data "recipient_count" (VInt 0);
  sent_count ← dict_get_or data "sent_count" (VInt 0);
  delivered_count ← dict_get_or data "delivered_count" (VInt 0);
  failed_count ← dict_get_or data "failed_count" (VInt 0);
  estimated_credits ← dict_get_or data "estimated_credits" (VInt 0);
  credits_used ← dict_get_or data "credits_used" (VInt 0);
  scheduled_at ← dict_get data "scheduled_at";
  timezone ← dict_get data "timezone";
  started_at ← dict_get data "started_at";
  completed_at ← dict_get data "completed_at";
  created_at ← subscr data "created_at";
  updated_at ← subscr data "updated_at";
  ok (Campaign.mk id name text template_id contact_list_ids status
        recipient_count sent_count delivered_count failed_count
        estimated_credits credits_used scheduled_at timezone started_at
        completed_at created_at updated_at).

Definition create (name text : string) (contact_list_ids : List string)
    (template_id : Optional string) : M S Campaign.t :=
  let body : dict :=
    {[ "name" := to_value name;
       "text" := to_value text;
       "contactListIds" := to_value contact_list_ids ]} in
  let body := set_if (truthy template_id) "templateId" template_id body in
  data ← request self (mkRequest "POST" "/campaigns" (Some body) None);
  pure (_transform_campaign data).

Definition list (limit offset : Optional Z) (status : Optional string)
    : M S CampaignListResponse.t :=
  let params : dict := ∅ in
  let params := set_if (truthy limit) "limit" limit params in
  let params := set_if (truthy offset) "offset" offset params in
  let params := set_if (truthy status) "status" status params in
  data ← request self (mkRequest "GET" "/campaigns" None (or_None params));
  pure (raw ← subscr data "campaigns";
        items ← iter raw;
        campaigns ← comprehension _transform_campaign items;
        total ← subscr data "total";
        limit ← subscr data "limit";
        offset ← subscr data "offset";
        ok (CampaignListResponse.mk campaigns total limit offset)).

Definition get (campaign_id : string) : M S Campaign.t :=
  data ← request self (mkRequest "GET" ("/campaigns/" ++ campaign_id) None None);
  pure (_transform_campaign data).

Definition update (campaign_id : string) (name text template_id : Optional string)
    (contact_list_ids : Optional (List string)) : M S Campaign.t :=
  let body : dict := ∅ in
  let body := set_if (is_not_None name) "name" name body in
  let body := set_if (is_not_None text) "text" text body in
  let body := set_if (is_not_None template_id) "templateId" template_id body in
  let body := set_if (is_not_None contact_list_ids) "contactListIds" contact_list_ids body in
  data ← request self (mkRequest "PATCH" ("/campaigns/" ++ campaign_id) (Some body) None);
  pure (_transform_campaign data).

Definition delete (campaign_id : string) : M S unit :=
  _ ← request self (mkRequest "DELETE" ("/campaigns/" ++ campaign_id) None None);
  mret tt.

Definition preview (campaign_id : string) : M S CampaignPreview.t :=
  data ← request self
    (mkRequest "GET" ("/campaigns/" ++ campaign_id ++ "/preview") None None);
  pure (id ← subscr data "id";
        recipient_count ← subscr data "recipient_count";
        estimated_segments ← subscr data "estimated_segments";
        estimated_credits ← subscr data "estimated_credits";
        current_balance ← subscr data "current_balance";
        has_enough_credits ← subscr data "has_enough_credits";
        breakdown ← dict_get data "breakdown";
        ok (CampaignPreview.mk id recipient_count estimated_segments
              estimated_credits current_balance has_enough_credits breakdown)).

Definition send (campaign_id : string) : M S Campaign.t :=
  data ← request self
    (mkRequest "POST" ("/campaigns/" ++ campaign_id ++ "/send") None None);
  pure (_transform_campaign data).

Definition schedule (campaign_id scheduled_at : string) (timezone : Optional string)
    : M S Campaign.t :=
  let body : dict := {[ "scheduledAt" := to_value scheduled_at ]} in
  let body := set_if (truthy timezone) "timezone" timezone body in
  data ← request self
    (mkRequest "POST" ("/campaigns/" ++ campaign_id ++ "/schedule") (Some body) None);
  pure (_transform_campaign data).

Definition cancel (campaign_id : string) : M S Campaign.t :=
  data ← request self
    (mkRequest "POST" ("/campaigns/" ++ campaign_id ++ "/cancel") None None);
  pure (_transform_campaign data).

Definition clone (campaign_id : string) : M S Campaign.t :=
  data ← request self
    (mkRequest "POST" ("/campaigns/" ++ campaign_id ++ "/clone") None None);
  pure (_transform_campaign data).

End methods.
End CampaignsResource.

(* ===================================================================== *)
(** ** contacts.py *)
(* ===================================================================== *)

Module ContactListsResource.
Section methods.
Context {S : Type} (self : Client S).

Definition _transform_list (data : value) : result ContactList.t :=
  present ← contains "contacts" data;
  cond ← (if present : bool then truthy <$> subscr data "contacts" else ok false);
  contacts ←
    (if cond : bool then
       raw ← subscr data "contacts";
       items ← iter raw;
       VList <$> comprehension (λ c,
         id ← subscr c "id";
         phone_number ← subscr c "phone_number";
         name ← dict_get c "name";
         email ← dict_get c "email";
         ok (VDict {[ "id" := id;
                      "phone_number" := phone_number;
                      "name" := name;
                      "email" := email ]})) items
     else ok VNone);
  id ← subscr data "id";
  name ← subscr data "name";
  description ← dict_get data "description";
  contact_count ← dict_get_or data "contact_count" (VInt 0);
  created_at ← subscr data "created_at";
  updated_at ← dict_get data "updated_at";
  contacts_total ← dict_get data "contacts_total";
  ok (ContactList.mk id name description contact_count created_at updated_at
        contacts contacts_total).

Definition list : M S ContactListsResponse.t :=
  data ← request self (mkRequest "GET" "/contact-lists" None None);
  pure (raw ← subscr data "lists";
        items ← iter raw;
        lists ← comprehension _transform_list items;
        ok (ContactListsResponse.mk lists)).

Definition get (list_id : string) (limit offset : Optional Z) : M S ContactList.t :=
  let params : dict := ∅ in
  let params := set_if (truthy limit) "limit" limit params in
  let params := set_if (truthy offset) "offset" offset params in
  data ← request self
    (mkRequest "GET" ("/contact-lists/" ++ list_id) None (or_None params));
  pure (_transform_list data).

Definition create (name : string) (description : Optional string) : M S ContactList.t :=
  let body : dict := {[ "name" := to_value name ]} in
  let body := set_if (truthy description) "description" description body in
  data ← request self (mkRequest "POST" "/contact-lists" (Some body) None);
  pure (_transform_list data).

Definition update (list_id : string) (name description : Optional string)
    : M S ContactList.t :=
  let body : dict := ∅ in
  let body := set_if (is_not_None name) "name" name body in
  let body := set_if (is_not_None description) "description" description body in
  data ← request self
    (mkRequest "PATCH" ("/contact-lists/" ++ list_id) (Some body) None);
  pure (_transform_list data).

Definition delete (list_id : string) : M S unit :=
  _ ← request self (mkRequest "DELETE" ("/contact-lists/" ++ list_id) None None);
  mret tt.

Definition add_contacts (list_id : string) (contact_ids : List string) : M S dict :=
  data ← request self
    (mkRequest "POST" ("/contact-lists/" ++ list_id ++ "/contacts")
       (Some {[ "contact_ids" := to_value contact_ids ]}) None);
  pure (added_count ← subscr data "added_count";
        ok ({[ "added_count" := added_count ]} : dict)).

Definition remove_contact (list_id contact_id : string) : M S unit :=
  _ ← request self
    (mkRequest "DELETE" ("/contact-lists/" ++ list_id ++ "/contacts/" ++ contact_id)
       None None);
  mret tt.

End methods.
End ContactListsResource.

Module ContactsResource.
Section methods.
Context {S : Type} (self : Client S).

(** [ImportContactItem] is a pydantic model of [sendly/types.py];
    [model_dump_exclude_none c] is [c.model_dump(exclude_none=True)]. *)
Context {ImportContactItem : Type}
        (model_dump_exclude_none : ImportContactItem → dict).

(** [self.lists = ContactListsResource(http)]: the sub-resource shares the
    client; its methods are those of [ContactListsResource] at [self]. *)

Definition _transform_contact (data : value) : result Contact.t :=
  present ← contains "lists" data;
  cond ← (if present : bool then truthy <$> subscr data "lists" else ok false);
  lists ←
    (if cond : bool then
       raw ← subscr data "lists";
       items ← iter raw;
       VList <$> comprehension (λ lst,
         id ← subscr lst "id";
         name ← subscr lst "name";
         ok (VDict {[ "id" := id; "name" := name ]})) items
     else ok VNone);
  id ← subscr data "id";
  phone_number ← subscr data "phone_number";
  name ← dict_get data "name";
  email ← dict_get data "email";
  metadata ← dict_get data "metadata";
  opted_out ← dict_get_or data "opted_out" (VBool false);
  created_at ← subscr data "created_at";
  updated_at ← dict_get data "updated_at";
  ok (Contact.mk id phone_number name email metadata opted_out created_at
        updated_at lists).

Definition list (limit offset : Optional Z) (search list_id : Optional string)
    : M S ContactListResponse.t :=
  let params : dict := ∅ in
  let params := set_if (truthy limit) "limit" limit params in
  let params := set_if (truthy offset) "offset" offset params in
  let params := set_if (truthy search) "search" search params in
  let params := set_if (truthy list_id) "list_id" list_id params in
  data ← request self (mkRequest "GET" "/contacts" None (or_None params));
  pure (raw ← subscr data "contacts";
        items ← iter raw;
        contacts ← comprehension _transform_contact items;
        total ← subscr data "total";
        limit ← subscr data "limit";
        offset ← subscr data "offset";
        ok (ContactListResponse.mk contacts total limit offset)).

Definition get (contact_id : string) : M S Contact.t :=
  data ← request self (mkRequest "GET" ("/contacts/" ++ contact_id) None None);
  pure (_transform_contact data).

Definition create (phone_number : string) (name email : Optional string)
    (metadata : Optional dict) : M S Contact.t :=
  let body : dict := {[ "phone_number" := to_value phone_number ]} in
  let body := set_if (truthy name) "name" name body in
  let body := set_if (truthy email) "email" email body in
  let body := set_if (truthy metadata) "metadata" metadata body in
  data ← request self (mkRequest "POST" "/contacts" (Some body) None);
  pure (_transform_contact data).

Definition update (contact_id : string) (name email : Optional string)
    (metadata : Optional dict) : M S Contact.t :=
  let body : dict := ∅ in
  let body := set_if (is_not_None name) "name" name body in
  let body := set_if (is_not_None email) "email" email body in
  let body := set_if (is_not_None metadata) "metadata" metadata body in
  data ← request self (mkRequest "PATCH" ("/contacts/" ++ contact_id) (Some body) None);
  pure (_transform_contact data).

Definition delete (contact_id : string) : M S unit :=
  _ ← request self (mkRequest "DELETE" ("/contacts/" ++ contact_id) None None);
  mret tt.

Definition import_contacts (contacts : List ImportContactItem)
    (list_id opted_in_at : Optional string) : M S ImportContactsResponse.t :=
  let body : dict :=
    {[ "contacts" := VList (VDict ∘ model_dump_exclude_none <$> contacts) ]} in
  let body := set_if (truthy list_id) "listId" list_id body in
  let body := set_if (truthy opted_in_at) "optedInAt" opted_in_at body in
  data ← request self (mkRequest "POST" "/contacts/import" (Some body) None);
  pure (imported ← subscr data "imported";
        skipped_duplicates ← subscr data "skippedDuplicates";
        errors ← dict_get_or data "errors" (VList []);
        total_errors ← dict_get_or data "totalErrors" (VInt 0);
        ok (ImportContactsResponse.mk imported skipped_duplicates errors
              total_errors)).

End methods.
End ContactsResource.

(* ===================================================================== *)
(** ** verify.py *)
(* ===================================================================== *)

Module VerifyResource.
Section methods.
Context {S : Type} (self : Client S).

Definition send (to : string) (template_id profile_id app_name : Optional string)
    (timeout_secs code_length : Optional Z) : M S SendVerificationResponse.t :=
  let body : dict := {[ "to" := to_value to ]} in
  let body := set_if (truthy template_id) "template_id" template_id body in
  let body := set_if (truthy profile_id) "profile_id" profile_id body in
  let body := set_if (truthy app_name) "app_name" app_name body in
  let body := set_if (truthy timeout_secs) "timeout_secs" timeout_secs body in
  let body := set_if (truthy code_length) "code_length" code_length body in
  data ← request self (mkRequest "POST" "/verify" (Some body) None);
  pure (id ← subscr data "id";
        status ← subscr data "status";
        phone ← subscr data "phone";
        expires_at ← subscr data "expires_at";
        sandbox ← subscr data "sandbox";
        sandbox_code ← dict_get data "sandbox_code";
        message ← dict_get data "message";
        ok (SendVerificationResponse.mk id status phone expires_at sandbox
              sandbox_code message)).

Definition check (verification_id code : string) : M S CheckVerificationResponse.t :=
  data ← request self
    (mkRequest "POST" ("/verify/" ++ verification_id ++ "/check")
       (Some {[ "code" := to_value code ]}) None);
  pure (id ← subscr data "id";
        status ← subscr data "status";
        phone ← subscr data "phone";
        verified_at ← dict_get data "verified_at";
        remaining_attempts ← dict_get data "remaining_attempts";
        ok (CheckVerificationResponse.mk id status phone verified_at
              remaining_attempts)).

Definition get (verification_id : string) : M S Verification.t :=
  data ← request self (mkRequest "GET" ("/verify/" ++ verification_id) None None);
  pure (id ← subscr data "id";
        status ← subscr data "status";
        phone ← subscr data "phone";
        delivery_status ← subscr data "delivery_status";
        attempts ← subscr data "attempts";
        max_attempts ← subscr data "max_attempts";
        expires_at ← subscr data "expires_at";
        verified_at ← dict_get data "verified_at";
        created_at ← subscr data "created_at";
        sandbox ← subscr data "sandbox";
        app_name ← dict_get data "app_name";
        template_id ← dict_get data "template_id";
        profile_id ← dict_get data "profile_id";
        ok (Verification.mk id status phone delivery_status attempts max_attempts
              expires_at verified_at created_at sandbox app_name template_id
              profile_id)).

Definition list (limit : Optional Z) (status : Optional string)
    : M S VerificationListResponse.t :=
  let params : dict := ∅ in
  let params := set_if (truthy limit) "limit" limit params in
  let params := set_if (truthy status) "status" status params in
  data ← request self (mkRequest "GET" "/verify" None (Some params));
  pure (raw ← subscr data "verifications";
        items ← iter raw;
        verifications ← comprehension (λ v,
          id ← subscr v "id";
          status ← subscr v "status";
          phone ← subscr v "phone";
          delivery_status ← subscr v "delivery_status";
          attempts ← subscr v "attempts";
          max_attempts ← subscr v "max_attempts";
          expires_at ← subscr v "expires_at";
          verified_at ← dict_get v "verified_at";
          created_at ← subscr v "created_at";
          sandbox ← subscr v "sandbox";
          app_name ← dict_get v "app_name";
          template_id ← dict_get v "template_id";
          profile_id ← dict_get v "profile_id";
          ok (Verification.mk id status phone delivery_status attempts
                max_attempts expires_at verified_at created_at sandbox app_name
                template_id profile_id)) items;
        pagination ← subscr data "pagination";
        ok (VerificationListResponse.mk verifications pagination)).

End methods.
End VerifyResource.

(* ===================================================================== *)
(** ** media.py *)
(* ===================================================================== *)

(** [MediaFile] called on the unpacked [data]: [MediaFile] is a pydantic
    model of [sendly/types.py].  Its constructor is [init]: the object, or the text
    of the [ValidationError] pydantic raises.  Unpacking something that is
    not a mapping is a [TypeError]. *)
Definition construct {MediaFile : Type} (init : dict → string + MediaFile)
    (data : value) : result MediaFile :=
  match data with
  | VDict d =>
      match init d with
      | inl msg => raise (PydanticValidationError msg)
      | inr m => ok m
      end
  | _ => raise TypeError
  end.

Module MediaResource.
Section methods.
Context {S : Type} (self : Client S).
Context {MediaFile : Type} (MediaFile_init : dict → string + MediaFile).

(** [content_type] is [None] when the caller leaves the keyword out; the
    signature then supplies ["image/jpeg"]. *)
Definition upload (file : BinaryIO) (content_type : Optional string) : M S MediaFile :=
  let content_type := default "image/jpeg" content_type in
  let filename := default (VStr "upload") (name file) in
  response ← client_post self
    (mkPost "/media"
       {[ "file" := mkFilePart filename file content_type ]}
       {[ "Authorization" := "Bearer " ++ api_key self;
          "Accept" := "application/json";
          "User-Agent" := client_headers_get self "User-Agent" "" ]});
  _ ← modify (_update_rate_limit_info self (headers response));
  data ← _parse_response self response;
  pure (match construct MediaFile_init data with
        | inl (PydanticValidationError _ as e) =>
            raise (SendlyError ("Invalid API response format: " ++ str_exn e)
                     "invalid_response" 200 (Some e))
        | r => r
        end).

End methods.
End MediaResource.

(* ===================================================================== *)
(** ** campaigns.py, async *)
(* ===================================================================== *)

Module AsyncCampaignsResource.
Definition _transform_campaign (data : value) : result Campaign.t :=
  id ← subscr data "id";
  name ← subscr data "name";
  text ← subscr data "text";
  template_id ← dict_get data "template_id";
  contact_list_ids ← dict_get_or data "contact_list_ids" (VList []);
  status ← subscr data "status";
  recipient_count ← dict_get_or data "recipient_count" (VInt 0);
  sent_count ← dict_get_or data "sent_count" (VInt 0);
  delivered_count ← dict_get_or data "delivered_count" (VInt 0);
  failed_count ← dict_get_or data "failed_count" (VInt 0);
  estimated_credits ← dict_get_or data "estimated_credits" (VInt 0);
  credits_used ← dict_get_or data "credits_used" (VInt 0);
  scheduled_at ← dict_get data "scheduled_at";
  timezone ← dict_get data "timezone";
  started_at ← dict_get data "started_at";
  completed_at ← dict_get data "completed_at";
  created_at ← subscr data "created_at";
  updated_at ← subscr data "updated_at";
  ok (Campaign.mk id name text template_id contact_list_ids status
        recipient_count sent_count delivered_count failed_count
        estimated_credits credits_used scheduled_at timezone started_at
        completed_at created_at updated_at).

Definition create (name text : string) (contact_list_ids : List string)
    (template_id : Optional string) : coro Campaign.t :=
  let body : dict :=
    {[ "name" := to_value name;
       "text" := to_value text;
       "contactListIds" := to_value contact_list_ids ]} in
  let body := set_if (truthy template_id) "templateId" template_id body in
  data ← await (AwaitRequest (mkRequest "POST" "/campaigns" (Some body) None));
  lift (_transform_campaign data).

Definition list (limit offset : Optional Z) (status : Optional string)
    : coro CampaignListResponse.t :=
  let params : dict := ∅ in
  let params := set_if (truthy limit) "limit" limit params in
  let params := set_if (truthy offset) "offset" offset params in
  let params := set_if (truthy status) "status" status params in
  data ← await (AwaitRequest (mkRequest "GET" "/campaigns" None (or_None params)));
  lift (raw ← subscr data "campaigns";
        items ← iter raw;
        campaigns ← comprehension _transform_campaign items;
        total ← subscr data "total";
        limit ← subscr data "limit";
        offset ← subscr data "offset";
        ok (CampaignListResponse.mk campaigns total limit offset)).

Definition get (campaign_id : string) : coro Campaign.t :=
  data ← await (AwaitRequest (mkRequest "GET" ("/campaigns/" ++ campaign_id) None None));
  lift (_transform_campaign data).

Definition update (campaign_id : string) (name text template_id : Optional string)
    (contact_list_ids : Optional (List string)) : coro Campaign.t :=
  let body : dict := ∅ in
  let body := set_if (is_not_None name) "name" name body in
  let body := set_if (is_not_None text) "text" text body in
  let body := set_if (is_not_None template_id) "templateId" template_id body in
  let body := set_if (is_not_None contact_list_ids) "contactListIds" contact_list_ids body in
  data ← await (AwaitRequest (mkRequest "PATCH" ("/campaigns/" ++ campaign_id) (Some body) None));
  lift (_transform_campaign data).

Definition delete (campaign_id : string) : coro unit :=
  _ ← await (AwaitRequest (mkRequest "DELETE" ("/campaigns/" ++ campaign_id) None None));
  mret tt.

Definition preview (campaign_id : string) : coro CampaignPreview.t :=
  data ← await (AwaitRequest
    (mkRequest "GET" ("/campaigns/" ++ campaign_id ++ "/preview") None None));
  lift (id ← subscr data "id";
        recipient_count ← subscr data "recipient_count";
        estimated_segments ← subscr data "estimated_segments";
        estimated_credits ← subscr data "estimated_credits";
        current_balance ← subscr data "current_balance";
        has_enough_credits ← subscr data "has_enough_credits";
        breakdown ← dict_get data "breakdown";
        ok (CampaignPreview.mk id recipient_count estimated_segments
              estimated_credits current_balance has_enough_credits breakdown)).

Definition send (campaign_id : string) : coro Campaign.t :=
  data ← await (AwaitRequest
    (mkRequest "POST" ("/campaigns/" ++ campaign_id ++ "/send") None None));
  lift (_transform_campaign data).

Definition schedule (campaign_id scheduled_at : string) (timezone : Optional string)
    : coro Campaign.t :=
  let body : dict := {[ "scheduledAt" := to_value scheduled_at ]} in
  let body := set_if (truthy timezone) "timezone" timezone body in
  data ← await (AwaitRequest
    (mkRequest "POST" ("/campaigns/" ++ campaign_id ++ "/schedule") (Some body) None));
  lift (_transform_campaign data).

Definition cancel (campaign_id : string) : coro Campaign.t :=
  data ← await (AwaitRequest
    (mkRequest "POST" ("/campaigns/" ++ campaign_id ++ "/cancel") None None));
  lift (_transform_campaign data).

Definition clone (campaign_id : string) : coro Campaign.t :=
  data ← await (AwaitRequest
    (mkRequest "POST" ("/campaigns/" ++ campaign_id ++ "/clone") None None));
  lift (_transform_campaign data).

End AsyncCampaignsResource.

(* ===================================================================== *)
(** ** contacts.py, async *)
(* ===================================================================== *)

Module AsyncContactListsResource.
Definition _transform_list (data : value) : result ContactList.t :=
  present ← contains "contacts" data;
  cond ← (if present : bool then truthy <$> subscr data "contacts" else ok false);
  contacts ←
    (if cond : bool then
       raw ← subscr data "contacts";
       items ← iter raw;
       VList <$> comprehension (λ c,
         id ← subscr c "id";
         phone_number ← subscr c "phone_number";
         name ← dict_get c "name";
         email ← dict_get c "email";
         ok (VDict {[ "id" := id;
                      "phone_number" := phone_number;
                      "name" := name;
                      "email" := email ]})) items
     else ok VNone);
  id ← subscr data "id";
  name ← subscr data "name";
  description ← dict_get data "description";
  contact_count ← dict_get_or data "contact_count" (VInt 0);
  created_at ← subscr data "created_at";
  updated_at ← dict_get data "updated_at";
  contacts_total ← dict_get data "contacts_total";
  ok (ContactList.mk id name description contact_count created_at updated_at
        contacts contacts_total).

Definition list : coro ContactListsResponse.t :=
  data ← await (AwaitRequest (mkRequest "GET" "/contact-lists" None None));
  lift (raw ← subscr data "lists";
        items ← iter raw;
        lists ← comprehension _transform_list items;
        ok (ContactListsResponse.mk lists)).

Definition get (list_id : string) (limit offset : Optional Z) : coro ContactList.t :=
  let params : dict := ∅ in
  let params := set_if (truthy limit) "limit" limit params in
  let params := set_if (truthy offset) "offset" offset params in
  data ← await (AwaitRequest
    (mkRequest "GET" ("/contact-lists/" ++ list_id) None (or_None params)));
  lift (_transform_list data).

Definition create (name : string) (description : Optional string) : coro ContactList.t :=
  let body : dict := {[ "name" := to_value name ]} in
  let body := set_if (truthy description) "description" description body in
  data ← await (AwaitRequest (mkRequest "POST" "/contact-lists" (Some body) None));
  lift (_transform_list data).

Definition update (list_id : string) (name description : Optional string)
    : coro ContactList.t :=
  let body : dict := ∅ in
  let body := set_if (is_not_None name) "name" name body in
  let body := set_if (is_not_None description) "description" description body in
  data ← await (AwaitRequest
    (mkRequest "PATCH" ("/contact-lists/" ++ list_id) (Some body) None));
  lift (_transform_list data).

Definition delete (list_id : string) : coro unit :=
  _ ← await (AwaitRequest (mkRequest "DELETE" ("/contact-lists/" ++ list_id) None None));
  mret tt.

Definition add_contacts (list_id : string) (contact_ids : List string) : coro dict :=
  data ← await (AwaitRequest
    (mkRequest "POST" ("/contact-lists/" ++ list_id ++ "/contacts")
       (Some {[ "contact_ids" := to_value contact_ids ]}) None));
  lift (added_count ← subscr data "added_count";
        ok ({[ "added_count" := added_count ]} : dict)).

Definition remove_contact (list_id contact_id : string) : coro unit :=
  _ ← await (AwaitRequest
    (mkRequest "DELETE" ("/contact-lists/" ++ list_id ++ "/contacts/" ++ contact_id)
       None None));
  mret tt.

End AsyncContactListsResource.

Module AsyncContactsResource.
Section methods.
(** [ImportContactItem] is a pydantic model of [sendly/types.py];
    [model_dump_exclude_none c] is [c.model_dump(exclude_none=True)]. *)
Context {ImportContactItem : Type}
        (model_dump_exclude_none : ImportContactItem → dict).

(** [self.lists = AsyncContactListsResource(http)]. *)

Definition _transform_contact (data : value) : result Contact.t :=
  present ← contains "lists" data;
  cond ← (if present : bool then truthy <$> subscr data "lists" else ok false);
  lists ←
    (if cond : bool then
       raw ← subscr data "lists";
       items ← iter raw;
       VList <$> comprehension (λ lst,
         id ← subscr lst "id";
         name ← subscr lst "name";
         ok (VDict {[ "id" := id; "name" := name ]})) items
     else ok VNone);
  id ← subscr data "id";
  phone_number ← subscr data "phone_number";
  name ← dict_get data "name";
  email ← dict_get data "email";
  metadata ← dict_get data "metadata";
  opted_out ← dict_get_or data "opted_out" (VBool false);
  created_at ← subscr data "created_at";
  updated_at ← dict_get data "updated_at";
  ok (Contact.mk id phone_number name email metadata opted_out created_at
        updated_at lists).

Definition list (limit offset : Optional Z) (search list_id : Optional string)
    : coro ContactListResponse.t :=
  let params : dict := ∅ in
  let params := set_if (truthy limit) "limit" limit params in
  let params := set_if (truthy offset) "offset" offset params in
  let params := set_if (truthy search) "search" search params in
  let params := set_if (truthy list_id) "list_id" list_id params in
  data ← await (AwaitRequest (mkRequest "GET" "/contacts" None (or_None params)));
  lift (raw ← subscr data "contacts";
        items ← iter raw;
        contacts ← comprehension _transform_contact items;
        total ← subscr data "total";
        limit ← subscr data "limit";
        offset ← subscr data "offset";
        ok (ContactListResponse.mk contacts total limit offset)).

Definition get (contact_id : string) : coro Contact.t :=
  data ← await (AwaitRequest (mkRequest "GET" ("/contacts/" ++ contact_id) None None));
  lift (_transform_contact data).

Definition create (phone_number : string) (name email : Optional string)
    (metadata : Optional dict) : coro Contact.t :=
  let body : dict := {[ "phone_number" := to_value phone_number ]} in
  let body := set_if (truthy name) "name" name body in
  let body := set_if (truthy email) "email" email body in
  let body := set_if (truthy metadata) "metadata" metadata body in
  data ← await (AwaitRequest (mkRequest "POST" "/contacts" (Some body) None));
  lift (_transform_contact data).

Definition update (contact_id : string) (name email : Optional string)
    (metadata : Optional dict) : coro Contact.t :=
  let body : dict := ∅ in
  let body := set_if (is_not_None name) "name" name body in
  let body := set_if (is_not_None email) "email" email body in
  let body := set_if (is_not_None metadata) "metadata" metadata body in
  data ← await (AwaitRequest (mkRequest "PATCH" ("/contacts/" ++ contact_id) (Some body) None));
  lift (_transform_contact data).

Definition delete (contact_id : string) : coro unit :=
  _ ← await (AwaitRequest (mkRequest "DELETE" ("/contacts/" ++ contact_id) None None));
  mret tt.

Definition import_contacts (contacts : List ImportContactItem)
    (list_id opted_in_at : Optional string) : coro ImportContactsResponse.t :=
  let body : dict :=
    {[ "contacts" := VList (VDict ∘ model_dump_exclude_none <$> contacts) ]} in
  let body := set_if (truthy list_id) "listId" list_id body in
  let body := set_if (truthy opted_in_at) "optedInAt" opted_in_at body in
  data ← await (AwaitRequest (mkRequest "POST" "/contacts/import" (Some body) None));
  lift (imported ← subscr data "imported";
        skipped_duplicates ← subscr data "skippedDuplicates";
        errors ← dict_get_or data "errors" (VList []);
        total_errors ← dict_get_or data "totalErrors" (VInt 0);
        ok (ImportContactsResponse.mk imported skipped_duplicates errors
              total_errors)).

End methods.
End AsyncContactsResource.

(* ===================================================================== *)
(** ** verify.py, async *)
(* ===================================================================== *)

Module AsyncVerifyResource.
Definition send (to : string) (template_id profile_id app_name : Optional string)
    (timeout_secs code_length : Optional Z) : coro SendVerificationResponse.t :=
  let body : dict := {[ "to" := to_value to ]} in
  let body := set_if (truthy template_id) "template_id" template_id body in
  let body := set_if (truthy profile_id) "profile_id" profile_id body in
  let body := set_if (truthy app_name) "app_name" app_name body in
  let body := set_if (truthy timeout_secs) "timeout_secs" timeout_secs body in
  let body := set_if (truthy code_length) "code_length" code_length body in
  data ← await (AwaitRequest (mkRequest "POST" "/verify" (Some body) None));
  lift (id ← subscr data "id";
        status ← subscr data "status";
        phone ← subscr data "phone";
        expires_at ← subscr data "expires_at";
        sandbox ← subscr data "sandbox";
        sandbox_code ← dict_get data "sandbox_code";
        message ← dict_get data "message";
        ok (SendVerificationResponse.mk id status phone expires_at sandbox
              sandbox_code message)).

Definition check (verification_id code : string) : coro CheckVerificationResponse.t :=
  data ← await (AwaitRequest
    (mkRequest "POST" ("/verify/" ++ verification_id ++ "/check")
       (Some {[ "code" := to_value code ]}) None));
  lift (id ← subscr data "id";
        status ← subscr data "status";
        phone ← subscr data "phone";
        verified_at ← dict_get data "verified_at";
        remaining_attempts ← dict_get data "remaining_attempts";
        ok (CheckVerificationResponse.mk id status phone verified_at
              remaining_attempts)).

Definition get (verification_id : string) : coro Verification.t :=
  data ← await (AwaitRequest (mkRequest "GET" ("/verify/" ++ verification_id) None None));
  lift (id ← subscr data "id";
        status ← subscr data "status";
        phone ← subscr data "phone";
        delivery_status ← subscr data "delivery_status";
        attempts ← subscr data "attempts";
        max_attempts ← subscr data "max_attempts";
        expires_at ← subscr data "expires_at";
        verified_at ← dict_get data "verified_at";
        created_at ← subscr data "created_at";
        sandbox ← subscr data "sandbox";
        app_name ← dict_get data "app_name";
        template_id ← dict_get data "template_id";
        profile_id ← dict_get data "profile_id";
        ok (Verification.mk id status phone delivery_status attempts max_attempts
              expires_at verified_at created_at sandbox app_name template_id
              profile_id)).

Definition list (limit : Optional Z) (status : Optional string)
    : coro VerificationListResponse.t :=
  let params : dict := ∅ in
  let params := set_if (truthy limit) "limit" limit params in
  let params := set_if (truthy status) "status" status params in
  data ← await (AwaitRequest (mkRequest "GET" "/verify" None (Some params)));
  lift (raw ← subscr data "verifications";
        items ← iter raw;
        verifications ← comprehension (λ v,
          id ← subscr v "id";
          status ← subscr v "status";
          phone ← subscr v "phone";
          delivery_status ← subscr v "delivery_status";
          attempts ← subscr v "attempts";
          max_attempts ← subscr v "max_attempts";
          expires_at ← subscr v "expires_at";
          verified_at ← dict_get v "verified_at";
          created_at ← subscr v "created_at";
          sandbox ← subscr v "sandbox";
          app_name ← dict_get v "app_name";
          template_id ← dict_get v "template_id";
          profile_id ← dict_get v "profile_id";
          ok (Verification.mk id status phone delivery_status attempts
                max_attempts expires_at verified_at created_at sandbox app_name
                template_id profile_id)) items;
        pagination ← subscr data "pagination";
        ok (VerificationListResponse.mk verifications pagination)).

End AsyncVerifyResource.

(* ===================================================================== *)
(** ** media.py, async *)
(* ===================================================================== *)

Module AsyncMediaResource.
Section methods.
Context {S : Type} (self : Client S).
Context {MediaFile : Type} (MediaFile_init : dict → string + MediaFile).

(** [content_type] is [None] when the caller leaves the keyword out; the
    signature then supplies ["image/jpeg"]. *)
Definition upload (file : BinaryIO) (content_type : Optional string) : coro MediaFile :=
  let content_type := default "image/jpeg" content_type in
  let filename := default (VStr "upload") (name file) in
  response ← await (AwaitPost
    (mkPost "/media"
       {[ "file" := mkFilePart filename file content_type ]}
       {[ "Authorization" := "Bearer " ++ api_key self;
          "Accept" := "application/json";
          "User-Agent" := client_headers_get self "User-Agent" "" ]}));
  _ ← call (UpdateRateLimitInfo (headers response));
  data ← call (ParseResponse response);
  lift (match construct MediaFile_init data with
        | inl (PydanticValidationError _ as e) =>
            raise (SendlyError ("Invalid API response format: " ++ str_exn e)
                     "invalid_response" 200 (Some e))
        | r => r
        end).

End methods.
End AsyncMediaResource.

(* ===================================================================== *)
(** ** The facade operations *)
(* ===================================================================== *)

(** One constructor per public method of the resource classes, with the
    method's arguments, indexed by the type of its result.  [sync] calls the
    method of the blocking class, [async] the method of the same name of
    the [Async] class. *)

Section Facade.
Context {ImportContactItem MediaFile : Type}.

Inductive operation : Type → Type :=
| campaigns_create (name text : string) (contact_list_ids : List string)
    (template_id : Optional string) : operation Campaign.t
| campaigns_list (limit offset : Optional Z) (status : Optional string)
    : operation CampaignListResponse.t
| campaigns_get (campaign_id : string) : operation Campaign.t
| campaigns_update (campaign_id : string) (name text template_id : Optional string)
    (contact_list_ids : Optional (List string)) : operation Campaign.t
| campaigns_delete (campaign_id : string) : operation unit
| campaigns_preview (campaign_id : string) : operation CampaignPreview.t
| campaigns_send (campaign_id : string) : operation Campaign.t
| campaigns_schedule (campaign_id scheduled_at : string) (timezone : Optional string)
    : operation Campaign.t
| campaigns_cancel (campaign_id : string) : operation Campaign.t
| campaigns_clone (campaign_id : string) : operation Campaign.t
| contact_lists_list : operation ContactListsResponse.t
| contact_lists_get (list_id : string) (limit offset : Optional Z)
    : operation ContactList.t
| contact_lists_create (name : string) (description : Optional string)
    : operation ContactList.t
| contact_lists_update (list_id : string) (name description : Optional string)
    : operation ContactList.t
| contact_lists_delete (list_id : string) : operation unit
| contact_lists_add_contacts (list_id : string) (contact_ids : List string)
    : operation dict
| contact_lists_remove_contact (list_id contact_id : string) : operation unit
| contacts_list (limit offset : Optional Z) (search list_id : Optional string)
    : operation ContactListResponse.t
| contacts_get (contact_id : string) : operation Contact.t
| contacts_create (phone_number : string) (name email : Optional string)
    (metadata : Optional dict) : operation Contact.t
| contacts_update (contact_id : string) (name email : Optional string)
    (metadata : Optional dict) : operation Contact.t
| contacts_delete (contact_id : string) : operation unit
| contacts_import_contacts (contacts : List ImportContactItem)
    (list_id opted_in_at : Optional string) : operation ImportContactsResponse.t
| verify_send (to : string) (template_id profile_id app_name : Optional string)
    (timeout_secs code_length : Optional Z) : operation SendVerificationResponse.t
| verify_check (verification_id code : string) : operation CheckVerificationResponse.t
| verify_get (verification_id : string) : operation Verification.t
| verify_list (limit : Optional Z) (status : Optional string)
    : operation VerificationListResponse.t
| media_upload (file : BinaryIO) (content_type : Optional string) : operation MediaFile.

Context (model_dump_exclude_none : ImportContactItem → dict)
        (MediaFile_init : dict → string + MediaFile).
Context {S : Type} (http : Client S).

Definition sync {A} (op : operation A) : M S A :=
  match op with
  | campaigns_create name text ids template_id =>
      CampaignsResource.create http name text ids template_id
  | campaigns_list limit offset status => CampaignsResource.list http limit offset status
  | campaigns_get campaign_id => CampaignsResource.get http campaign_id
  | campaigns_update campaign_id name text template_id ids =>
      CampaignsResource.update http campaign_id name text template_id ids
  | campaigns_delete campaign_id => CampaignsResource.delete http campaign_id
  | campaigns_preview campaign_id => CampaignsResource.preview http campaign_id
  | campaigns_send campaign_id => CampaignsResource.send http campaign_id
  | campaigns_schedule campaign_id scheduled_at timezone =>
      CampaignsResource.schedule http campaign_id scheduled_at timezone
  | campaigns_cancel campaign_id => CampaignsResource.cancel http campaign_id
  | campaigns_clone campaign_id => CampaignsResource.clone http campaign_id
  | contact_lists_list => ContactListsResource.list http
  | contact_lists_get list_id limit offset =>
      ContactListsResource.get http list_id limit offset
  | contact_lists_create name description =>
      ContactListsResource.create http name description
  | contact_lists_update list_id name description =>
      ContactListsResource.update http list_id name description
  | contact_lists_delete list_id => ContactListsResource.delete http list_id
  | contact_lists_add_contacts list_id contact_ids =>
      ContactListsResource.add_contacts http list_id contact_ids
  | contact_lists_remove_contact list_id contact_id =>
      ContactListsResource.remove_contact http list_id contact_id
  | contacts_list limit offset search list_id =>
      ContactsResource.list http limit offset search list_id
  | contacts_get contact_id => ContactsResource.get http contact_id
  | contacts_create phone_number name email metadata =>
      ContactsResource.create http phone_number name email metadata
  | contacts_update contact_id name email metadata =>
      ContactsResource.update http contact_id name email metadata
  | contacts_delete contact_id => ContactsResource.delete http contact_id
  | contacts_import_contacts contacts list_id opted_in_at =>
      ContactsResource.import_contacts http model_dump_exclude_none contacts
        list_id opted_in_at
  | verify_send to template_id profile_id app_name timeout_secs code_length =>
      VerifyResource.send http to template_id profile_id app_name timeout_secs
        code_length
  | verify_check verification_id code => VerifyResource.check http verification_id code
  | verify_get verification_id => VerifyResource.get http verification_id
  | verify_list limit status => VerifyResource.list http limit status
  | media_upload file content_type =>
      MediaResource.upload http MediaFile_init file content_type
  end.

Definition async {A} (op : operation A) : coro A :=
  match op with
  | campaigns_create name text ids template_id =>
      AsyncCampaignsResource.create name text ids template_id
  | campaigns_list limit offset status => AsyncCampaignsResource.list limit offset status
  | campaigns_get campaign_id => AsyncCampaignsResource.get campaign_id
  | campaigns_update campaign_id name text template_id ids =>
      AsyncCampaignsResource.update campaign_id name text template_id ids
  | campaigns_delete campaign_id => AsyncCampaignsResource.delete campaign_id
  | campaigns_preview campaign_id => AsyncCampaignsResource.preview campaign_id
  | campaigns_send campaign_id => AsyncCampaignsResource.send campaign_id
  | campaigns_schedule campaign_id scheduled_at timezone =>
      AsyncCampaignsResource.schedule campaign_id scheduled_at timezone
  | campaigns_cancel campaign_id => AsyncCampaignsResource.cancel campaign_id
  | campaigns_clone campaign_id => AsyncCampaignsResource.clone campaign_id
  | contact_lists_list => AsyncContactListsResource.list
  | contact_lists_get list_id limit offset =>
      AsyncContactListsResource.get list_id limit offset
  | contact_lists_create name description =>
      AsyncContactListsResource.create name description
  | contact_lists_update list_id name description =>
      AsyncContactListsResource.update list_id name description
  | contact_lists_delete list_id => AsyncContactListsResource.delete list_id
  | contact_lists_add_contacts list_id contact_ids =>
      AsyncContactListsResource.add_contacts list_id contact_ids
  | contact_lists_remove_contact list_id contact_id =>
      AsyncContactListsResource.remove_contact list_id contact_id
  | contacts_list limit offset search list_id =>
      AsyncContactsResource.list limit offset search list_id
  | contacts_get contact_id => AsyncContactsResource.get contact_id
  | contacts_create phone_number name email metadata =>
      AsyncContactsResource.create phone_number name email metadata
  | contacts_update contact_id name email metadata =>
      AsyncContactsResource.update contact_id name email metadata
  | contacts_delete contact_id => AsyncContactsResource.delete contact_id
  | contacts_import_contacts contacts list_id opted_in_at =>
      AsyncContactsResource.import_contacts model_dump_exclude_none contacts
        list_id opted_in_at
  | verify_send to template_id profile_id app_name timeout_secs code_length =>
      AsyncVerifyResource.send to template_id profile_id app_name timeout_secs
        code_length
  | verify_check verification_id code => AsyncVerifyResource.check verification_id code
  | verify_get verification_id => AsyncVerifyResource.get verification_id
  | verify_list limit status => AsyncVerifyResource.list limit status
  | media_upload file content_type =>
      AsyncMediaResource.upload http MediaFile_init file content_type
  end.

End Facade.
#[global] Arguments operation : clear implicits.

(* ===================================================================== *)
(** ** Observing an operation *)
(* ===================================================================== *)

Section observe.
Context {ImportContactItem MediaFile : Type}.
Context (model_dump_exclude_none : ImportContactItem → dict)
        (MediaFile_init : dict → string + MediaFile).

(** What the blocking method puts on the wire, on a recording client that
    starts with an empty log. *)
Definition wire (http : Client (list sent)) {A}
    (op : operation ImportContactItem MediaFile A) : list sent :=
  snd (sync model_dump_exclude_none MediaFile_init http op []).

(** A service that answers every request with the mapping [data] (and every
    upload with a 200 response whose parsed body is [data]), behind a client
    without default headers. *)
Definition answering (data : value) : Client (list sent) :=
  recorder "sk_test_v1_key" (λ _ dflt, dflt)
    (λ _, ok data) (λ _, ok (mkResponse 200 ∅ [])) (λ _, ok data).

(** What the blocking method returns, or raises, when the service answers
    with [data]; a typed object is returned as the keyword arguments it is
    built from. *)
Definition reshaped {A} (op : operation ImportContactItem MediaFile A)
    (data : value) : result A :=
  fst (sync model_dump_exclude_none MediaFile_init (answering data) op []).

End observe.

(** The keys of a body or params mapping; none when the keyword is [None]. *)
Definition keys_of (o : option dict) : gset string :=
  match o with None => ∅ | Some d => dom d end.

(** The keys a request carries: of its JSON body and query params, or the
    form fields of a multipart upload. *)
Definition sent_keys (x : sent) : gset string :=
  match x with
  | SentRequest r => keys_of (json r) ∪ keys_of (params r)
  | SentPost p => dom (files p)
  end.

Definition absent {A} (arg : option A) (key : string) : list string :=
  match arg with None => [key] | Some _ => [] end.

(** The wire keys of the optional parameters the caller left out ([None]),
    per operation: each parameter under the key its method stores it. *)
Definition omitted {I MF A} (op : operation I MF A) : list string :=
  match op with
  | campaigns_create _ _ _ template_id => absent template_id "templateId"
  | campaigns_list limit offset status =>
      absent limit "limit" ++ absent offset "offset" ++ absent status "status"
  | campaigns_update _ name text template_id contact_list_ids =>
      absent name "name" ++ absent text "text" ++ absent template_id "templateId"
      ++ absent contact_list_ids "contactListIds"
  | campaigns_schedule _ _ timezone => absent timezone "timezone"
  | contact_lists_get _ limit offset => absent limit "limit" ++ absent offset "offset"
  | contact_lists_create _ description => absent description "description"
  | contact_lists_update _ name description =>
      absent name "name" ++ absent description "description"
  | contacts_list limit offset search list_id =>
      absent limit "limit" ++ absent offset "offset" ++ absent search "search"
      ++ absent list_id "list_id"
  | contacts_create _ name email metadata =>
      absent name "name" ++ absent email "email" ++ absent metadata "metadata"
  | contacts_update _ name email metadata =>
      absent name "name" ++ absent email "email" ++ absent metadata "metadata"
  | contacts_import_contacts _ list_id opted_in_at =>
      absent list_id "listId" ++ absent opted_in_at "optedInAt"
  | verify_send _ template_id profile_id app_name timeout_secs code_length =>
      absent template_id "template_id" ++ absent profile_id "profile_id"
      ++ absent app_name "app_name" ++ absent timeout_secs "timeout_secs"
      ++ absent code_length "code_length"
  | verify_list limit status => absent limit "limit" ++ absent status "status"
  | media_upload _ content_type => absent content_type "content_type"
  | _ => []
  end.

(** The list-returning methods: the key of the item array in the response,
    the number of items of the typed result, its attributes other than the
    items, and the names of the pagination attributes it is built with. *)
Record listing (A : Type) : Type := mkListing {
  items_key : string;
  item_count : A → nat;
  list_metadata : A → list (string * value);
  pagination_names : list string;
}.
#[global] Arguments mkListing {A}.
#[global] Arguments items_key {A}.
#[global] Arguments item_count {A}.
#[global] Arguments list_metadata {A}.
#[global] Arguments pagination_names {A}.

Definition list_method {I MF A} (op : operation I MF A) : option (listing A) :=
  match op in operation _ _ A return option (listing A) with
  | campaigns_list _ _ _ =>
      Some (mkListing "campaigns" (λ r, length (CampaignListResponse.campaigns r))
              CampaignListResponse.metadata ["total"; "limit"; "offset"])
  | contact_lists_list =>
      Some (mkListing "lists" (λ r, length (ContactListsResponse.lists r))
              ContactListsResponse.metadata [])
  | contacts_list _ _ _ _ =>
      Some (mkListing "contacts" (λ r, length (ContactListResponse.contacts r))
              ContactListResponse.metadata ["total"; "limit"; "offset"])
  | verify_list _ _ =>
      Some (mkListing "verifications"
              (λ r, length (VerificationListResponse.verifications r))
              VerificationListResponse.metadata ["pagination"])
  | _ => None
  end.


(** [d[k]] is there and the attribute [k] of the typed object is that
    value. *)
Definition passes_through (d : dict) (attrs : list (string * value))
    (k : string) : Prop :=
  ∃ v, d !! k = Some v ∧ getattr attrs k = Some v.

(** The operations that return one typed object built from the response
    mapping: the object's scalar attributes, and the attributes the method
    does not read from the key of the same name. *)
Record typed_object (A : Type) : Type := mkTyped {
  attributes : A → list (string * value);
  not_copied : list string;
}.
#[global] Arguments mkTyped {A}.
#[global] Arguments attributes {A}.
#[global] Arguments not_copied {A}.

Definition typed_result {I MF A} (op : operation I MF A) : option (typed_object A) :=
  match op in operation _ _ A return option (typed_object A) with
  | campaigns_create _ _ _ _ | campaigns_get _ | campaigns_update _ _ _ _ _
  | campaigns_send _ | campaigns_schedule _ _ _ | campaigns_cancel _
  | campaigns_clone _ => Some (mkTyped Campaign.fields [])
  | campaigns_preview _ => Some (mkTyped CampaignPreview.fields [])
  | contact_lists_get _ _ _ | contact_lists_create _ _ | contact_lists_update _ _ _ =>
      Some (mkTyped ContactList.fields ["contacts"])
  | contacts_get _ | contacts_create _ _ _ _ | contacts_update _ _ _ _ =>
      Some (mkTyped Contact.fields ["lists"])
  | contacts_import_contacts _ _ _ =>
      Some (mkTyped ImportContactsResponse.fields
              ["skipped_duplicates"; "total_errors"])
  | verify_send _ _ _ _ _ _ => Some (mkTyped SendVerificationResponse.fields [])
  | verify_check _ _ => Some (mkTyped CheckVerificationResponse.fields [])
  | verify_get _ => Some (mkTyped Verification.fields [])
  | _ => None
  end.

(** The two properties in their unrestricted form, for every list-returning
    method and every typed object alike. *)
Definition every_list_has_total_limit_offset {I MF : Type}
    (dump : I → dict) (init : dict → string + MF) : Prop :=
  ∀ A (op : operation I MF A) (l : listing A) (d : dict) (r : A),
    list_method op = Some l →
    reshaped dump init op (VDict d) = inr r →
    ∀ k, k ∈ ["total"; "limit"; "offset"] → passes_through d (list_metadata l r) k.


(** *** Sample data *)

(** Stand-ins for the two pydantic models, where an example needs none of
    them: no import items, and a [MediaFile] that rejects every mapping. *)
Definition no_items (c : Empty_set) : dict := ∅.
Definition no_media (d : dict) : string + Empty_set := inl "validation error".

Definition sample_campaign : dict :=
  {[ "id" := VStr "cmp_1";
     "name" := VStr "Welcome";
     "text" := VStr "Hello {{name}}!";
     "status" := VStr "draft";
     "recipient_count" := VInt 25;
     "contact_list_ids" := VList [VStr "lst_1"];
     "created_at" := VStr "2025-01-01T00:00:00Z";
     "updated_at" := VStr "2025-01-02T00:00:00Z" ]}.

Definition sample_campaigns_page : dict :=
  {[ "campaigns" := VList [VDict sample_campaign];
     "total" := VInt 1;
     "limit" := VInt 10;
     "offset" := VInt 0 ]}.

Definition sample_lists_page : dict :=
  {[ "lists" := VList [];
     "total" := VInt 0;
     "limit" := VInt 50;
     "offset" := VInt 0 ]}.

Definition sample_contact : dict :=
  {[ "id" := VStr "cnt_1";
     "phone_number" := VStr "+15551234567";
     "created_at" := VStr "2025-01-01T00:00:00Z" ]}.

Definition sample_check : dict :=
  {[ "id" := VStr "ver_1";
     "status" := VStr "verified";
     "phone" := VStr "+15551234567" ]}.

(** *** Shapes of what is sent *)

(** No entry of a body or params mapping is [None]. *)
Definition no_null (x : sent) : Prop :=
  match x with
  | SentRequest r =>
      map_Forall (λ _ v, v ≠ VNone) (default ∅ (json r))
      ∧ map_Forall (λ _ v, v ≠ VNone) (default ∅ (params r))
  | SentPost _ => True
  end.

(** Query params go with [GET] only, a JSON body with [POST] and [PATCH]
    only, and [DELETE] carries neither. *)
Definition verb_shape (x : sent) : Prop :=
  match x with
  | SentRequest r =>
      (method r = "GET" ∧ json r = None)
      ∨ (method r = "DELETE" ∧ json r = None ∧ params r = None)
      ∨ ((method r = "POST" ∨ method r = "PATCH") ∧ params r = None)
  | SentPost p => url p = "/media"
  end.

(** *** Tables for the response side *)

(** The first key of [keys] that [d] lacks. *)
Definition first_missing (keys : list string) (d : dict) : option string :=
  List.find (λ k, match d !! k with None => true | Some _ => false end) keys.

(** The keys an operation subscripts in the response mapping, in the order
    it does, for the operations that reshape the mapping itself with
    subscripts and [get] only. *)
Definition required_keys {I MF A} (op : operation I MF A) : option (list string) :=
  match op with
  | campaigns_create _ _ _ _ | campaigns_get _ | campaigns_update _ _ _ _ _
  | campaigns_send _ | campaigns_schedule _ _ _ | campaigns_cancel _
  | campaigns_clone _ =>
      Some ["id"; "name"; "text"; "status"; "created_at"; "updated_at"]
  | campaigns_preview _ =>
      Some ["id"; "recipient_count"; "estimated_segments"; "estimated_credits";
            "current_balance"; "has_enough_credits"]
  | contact_lists_add_contacts _ _ => Some ["added_count"]
  | contacts_import_contacts _ _ _ => Some ["imported"; "skippedDuplicates"]
  | verify_send _ _ _ _ _ _ => Some ["id"; "status"; "phone"; "expires_at"; "sandbox"]
  | verify_check _ _ => Some ["id"; "status"; "phone"]
  | verify_get _ =>
      Some ["id"; "status"; "phone"; "delivery_status"; "attempts"; "max_attempts";
            "expires_at"; "created_at"; "sandbox"]
  | _ => None
  end.

(** The optional attributes of the typed objects: the response key, the
    attribute read from it, and the value the attribute takes when the key
    is absent. *)
Definition campaign_defaults : list (string * string * value) :=
  [("template_id", "template_id", VNone);
   ("contact_list_ids", "contact_list_ids", VList []);
   ("recipient_count", "recipient_count", VInt 0);
   ("sent_count", "sent_count", VInt 0);
   ("delivered_count", "delivered_count", VInt 0);
   ("failed_count", "failed_count", VInt 0);
   ("estimated_credits", "estimated_credits", VInt 0);
   ("credits_used", "credits_used", VInt 0);
   ("scheduled_at", "scheduled_at", VNone);
   ("timezone", "timezone", VNone);
   ("started_at", "started_at", VNone);
   ("completed_at", "completed_at", VNone)].

Definition contact_list_defaults : list (string * string * value) :=
  [("contacts", "contacts", VNone);
   ("description", "description", VNone);
   ("contact_count", "contact_count", VInt 0);
   ("updated_at", "updated_at", VNone);
   ("contacts_total", "contacts_total", VNone)].

Definition contact_defaults : list (string * string * value) :=
  [("lists", "lists", VNone);
   ("name", "name", VNone);
   ("email", "email", VNone);
   ("metadata", "metadata", VNone);
   ("opted_out", "opted_out", VBool false);
   ("updated_at", "updated_at", VNone)].

Definition field_defaults {I MF A} (op : operation I MF A)
    : list (string * string * value) :=
  match op with
  | campaigns_create _ _ _ _ | campaigns_get _ | campaigns_update _ _ _ _ _
  | campaigns_send _ | campaigns_schedule _ _ _ | campaigns_cancel _
  | campaigns_clone _ => campaign_defaults
  | campaigns_preview _ => [("breakdown", "breakdown", VNone)]
  | contact_lists_get _ _ _ | contact_lists_create _ _ | contact_lists_update _ _ _ =>
      contact_list_defaults
  | contacts_get _ | contacts_create _ _ _ _ | contacts_update _ _ _ _ =>
      contact_defaults
  | contacts_import_contacts _ _ _ =>
      [("errors", "errors", VList []); ("totalErrors", "total_errors", VInt 0)]
  | verify_send _ _ _ _ _ _ =>
      [("sandbox_code", "sandbox_code", VNone); ("message", "message", VNone)]
  | verify_check _ _ =>
      [("verified_at", "verified_at", VNone);
       ("remaining_attempts", "remaining_attempts", VNone)]
  | verify_get _ =>
      [("verified_at", "verified_at", VNone); ("app_name", "app_name", VNone);
       ("template_id", "template_id", VNone); ("profile_id", "profile_id", VNone)]
  | _ => []
  end.

(** The keys of the response mapping an operation looks at; [None] for the
    upload, which hands the whole mapping to the [MediaFile] constructor. *)
Definition response_keys {I MF A} (op : operation I MF A) : option (list string) :=
  match op with
  | campaigns_create _ _ _ _ | campaigns_get _ | campaigns_update _ _ _ _ _
  | campaigns_send _ | campaigns_schedule _ _ _ | campaigns_cancel _
  | campaigns_clone _ =>
      Some ["id"; "name"; "text"; "template_id"; "contact_list_ids"; "status";
            "recipient_count"; "sent_count"; "delivered_count"; "failed_count";
            "estimated_credits"; "credits_used"; "scheduled_at"; "timezone";
            "started_at"; "completed_at"; "created_at"; "updated_at"]
  | campaigns_list _ _ _ => Some ["campaigns"; "total"; "limit"; "offset"]
  | campaigns_preview _ =>
      Some ["id"; "recipient_count"; "estimated_segments"; "estimated_credits";
            "current_balance"; "has_enough_credits"; "breakdown"]
  | campaigns_delete _ | contact_lists_delete _ | contact_lists_remove_contact _ _
  | contacts_delete _ => Some []
  | contact_lists_list => Some ["lists"]
  | contact_lists_get _ _ _ | contact_lists_create _ _ | contact_lists_update _ _ _ =>
      Some ["contacts"; "id"; "name"; "description"; "contact_count"; "created_at";
            "updated_at"; "contacts_total"]
  | contact_lists_add_contacts _ _ => Some ["added_count"]
  | contacts_list _ _ _ _ => Some ["contacts"; "total"; "limit"; "offset"]
  | contacts_get _ | contacts_create _ _ _ _ | contacts_update _ _ _ _ =>
      Some ["lists"; "id"; "phone_number"; "name"; "email"; "metadata"; "opted_out";
            "created_at"; "updated_at"]
  | contacts_import_contacts _ _ _ =>
      Some ["imported"; "skippedDuplicates"; "errors"; "totalErrors"]
  | verify_send _ _ _ _ _ _ =>
      Some ["id"; "status"; "phone"; "expires_at"; "sandbox"; "sandbox_code";
            "message"]
  | verify_check _ _ =>
      Some ["id"; "status"; "phone"; "verified_at"; "remaining_attempts"]
  | verify_get _ =>
      Some ["id"; "status"; "phone"; "delivery_status"; "attempts"; "max_attempts";
            "expires_at"; "verified_at"; "created_at"; "sandbox"; "app_name";
            "template_id"; "profile_id"]
  | verify_list _ _ => Some ["verifications"; "pagination"]
  | media_upload _ _ => None
  end.

(** Whether the value is a mapping. *)
Definition is_mapping (data : value) : bool :=
  match data with VDict _ => true | _ => false end.

Definition sample_verification : dict :=
  {[ "id" := VStr "ver_1";
     "status" := VStr "pending";
     "phone" := VStr "+15551234567";
     "delivery_status" := VStr "sent";
     "attempts" := VInt 0;
     "max_attempts" := VInt 3;
     "expires_at" := VStr "2025-01-01T00:05:00Z";
     "created_at" := VStr "2025-01-01T00:00:00Z";
     "sandbox" := VBool false ]}.

(** A client that only notes, in its state, which of its methods are
    called: every post is answered with an empty 200 response, and parsing
    gives [parsed]. *)
Definition tracing (parsed : result value) : Client (list string) :=
  {| api_key := "sk_test_v1_key";
     client_headers_get := λ _ dflt, dflt;
     request := λ _ s, (ok VNone, (s ++ ["request"])%list);
     client_post := λ _ s, (ok (mkResponse 200 ∅ []), (s ++ ["client.post"])%list);
     _update_rate_limit_info := λ _ s, (s ++ ["_update_rate_limit_info"])%list;
     _parse_response := λ _ s, (parsed, (s ++ ["_parse_response"])%list) |}.

Definition sample_contact_with_lists : dict :=
  <["lists" := VList [VDict {[ "id" := VStr "lst_1";
                               "name" := VStr "VIP";
                               "contact_count" := VInt 7 ]}]]> sample_contact.

(** *** The bodies of the methods that build one *)

(** How a method decides whether an optional argument goes into the body:
    [if x:] or [if x is not None:]. *)
Inductive presence_test : Type := Truthiness | IsNotNone.

(** A method's body: the entries it always sets, and its optional
    arguments under their wire keys ([None] when the argument is [None]). *)
Record body_rule : Type := mkBodyRule {
  test : presence_test;
  required_entries : list (string * value);
  optional_entries : list (string * option value);
}.

Definition body_rule_of {I MF A} (dump : I → dict) (op : operation I MF A)
    : option body_rule :=
  match op with
  | campaigns_create name text contact_list_ids template_id =>
      Some (mkBodyRule Truthiness
              [("name", VStr name); ("text", VStr text);
               ("contactListIds", VList (VStr <$> contact_list_ids))]
              [("templateId", VStr <$> template_id)])
  | campaigns_schedule _ scheduled_at timezone =>
      Some (mkBodyRule Truthiness
              [("scheduledAt", VStr scheduled_at)]
              [("timezone", VStr <$> timezone)])
  | contact_lists_create name description =>
      Some (mkBodyRule Truthiness
              [("name", VStr name)]
              [("description", VStr <$> description)])
  | contacts_create phone_number name email metadata =>
      Some (mkBodyRule Truthiness
              [("phone_number", VStr phone_number)]
              [("name", VStr <$> name); ("email", VStr <$> email);
               ("metadata", VDict <$> metadata)])
  | contacts_import_contacts contacts list_id opted_in_at =>
      Some (mkBodyRule Truthiness
              [("contacts", VList (VDict ∘ dump <$> contacts))]
              [("listId", VStr <$> list_id); ("optedInAt", VStr <$> opted_in_at)])
  | verify_send to template_id profile_id app_name timeout_secs code_length =>
      Some (mkBodyRule Truthiness
              [("to", VStr to)]
              [("template_id", VStr <$> template_id);
               ("profile_id", VStr <$> profile_id);
               ("app_name", VStr <$> app_name);
               ("timeout_secs", VInt <$> timeout_secs);
               ("code_length", VInt <$> code_length)])
  | campaigns_update _ name text template_id contact_list_ids =>
      Some (mkBodyRule IsNotNone []
              [("name", VStr <$> name); ("text", VStr <$> text);
               ("templateId", VStr <$> template_id);
               ("contactListIds", (λ ids, VList (VStr <$> ids)) <$> contact_list_ids)])
  | contact_lists_update _ name description =>
      Some (mkBodyRule IsNotNone []
              [("name", VStr <$> name); ("description", VStr <$> description)])
  | contacts_update _ name email metadata =>
      Some (mkBodyRule IsNotNone []
              [("name", VStr <$> name); ("email", VStr <$> email);
               ("metadata", VDict <$> metadata)])
  | _ => None
  end.

(** Whether an optional argument passes the method's test. *)
Definition kept (t : presence_test) (entry : string * option value)
    : option (string * value) :=
  match entry.2 with
  | None => None
  | Some v =>
      match t with
      | Truthiness => if truthy v then Some (entry.1, v) else None
      | IsNotNone => Some (entry.1, v)
      end
  end.

(** The body the rule gives: the required entries and the optional ones
    that pass the test. *)
Definition expected_body (r : body_rule) : dict :=
  list_to_map (required_entries r ++ omap (kept (test r)) (optional_entries r)).

(** *** Pydantic validation *)

(** The typed objects are pydantic models, declared in [sendly/types.py],
    which is not part of the sources.  Calling a model class validates the
    keyword arguments: it raises a [ValidationError], or returns the object,
    whose fields are the arguments as the model stores them (unchanged, or
    coerced to the declared field type).  A model is therefore taken as it
    comes: any function from the keyword arguments [K] to the text of the
    error or an object [O]. *)
Definition validator (K O : Type) : Type := K → string + O.

(** A method that returns one typed object evaluates every keyword argument
    first and calls the model class last, outside any [try] (the upload
    apart): what reaches the caller is the exception of the arguments, the
    model's [ValidationError], or the model's object. *)
Definition constructed {K O} (validate : validator K O) (arguments : result K)
    : result O :=
  kw ← arguments;
  match validate kw with
  | inl msg => raise (PydanticValidationError msg)
  | inr o => ok o
  end.


Create HintDb facade discriminated.
#[global] Hint Unfold
  CampaignsResource.create CampaignsResource.list CampaignsResource.get
  CampaignsResource.update CampaignsResource.delete CampaignsResource.preview
  CampaignsResource.send CampaignsResource.schedule CampaignsResource.cancel
  CampaignsResource.clone
  ContactListsResource.list ContactListsResource.get ContactListsResource.create
  ContactListsResource.update ContactListsResource.delete
  ContactListsResource.add_contacts ContactListsResource.remove_contact
  ContactsResource.list ContactsResource.get ContactsResource.create
  ContactsResource.update ContactsResource.delete ContactsResource.import_contacts
  VerifyResource.send VerifyResource.check VerifyResource.get VerifyResource.list
  MediaResource.upload : facade.

(** Splitting on the keys a reshaping requires. *)
Ltac required H :=
  repeat match type of H with
         | context [match ?d !! ?k with _ => _ end] =>
             destruct (d !! k) eqn:?; cbn -[from_option String.eqb] in H;
             [|discriminate H]
         end.



(** One step of a list reshaping: the next lookup, iteration or
    comprehension succeeds, or the whole reshaping fails. *)
Ltac list_step H :=
  match type of H with
  | context [match ?d !! ?k with _ => _ end] => destruct (d !! k) eqn:?
  | context [match iter ?x with _ => _ end] => destruct (iter x) eqn:?
  | context [match comprehension ?f ?x with _ => _ end] =>
      destruct (comprehension f x) eqn:?
  end; cbn -[iter comprehension] in H; unfold mbind, result_bind in H;
  try discriminate H.

(* ===================================================================== *)
(** ** The event loop *)
(* ===================================================================== *)

Section run_facts.
Context {S : Type} (http : Client S).

Lemma M_bind_eq {A B} (m : M S A) (f : A → M S B) (s : S) :
  (m ≫= f) s
  = match m s with (inl e, s') => (inl e, s') | (inr a, s') => f a s' end.
Proof. reflexivity. Qed.

Lemma run_bind {A B} (m : coro A) (f : A → coro B) (s : S) :
  run_until_complete http (m ≫= f) s
  = (run_until_complete http m ≫= λ a, run_until_complete http (f a)) s.
Proof.
  revert s. induction m as [a|e|C w k IH|C c k IH]; intros s; try reflexivity.
  - cbn. unfold mbind, M_bind. cbn.
    destruct (perform_await http w s) as [[e|b] s']; [reflexivity|]. apply IH.
  - cbn. unfold mbind, M_bind. cbn.
    destruct (perform_call http c s) as [[e|b] s']; [reflexivity|]. apply IH.
Qed.

Lemma run_await_request (r : Request) (s : S) :
  run_until_complete http (await (AwaitRequest r)) s = request http r s.
Proof. cbn. by destruct (request http r s) as [[e|b] s']. Qed.

Lemma run_await_post (p : Post) (s : S) :
  run_until_complete http (await (AwaitPost p)) s = client_post http p s.
Proof. cbn. by destruct (client_post http p s) as [[e|b] s']. Qed.

Lemma run_call {B} (c : direct B) (s : S) :
  run_until_complete http (call c) s = perform_call http c s.
Proof. cbn. by destruct (perform_call http c s) as [[e|b] s']. Qed.

Lemma run_lift {A} (r : result A) (s : S) :
  run_until_complete http (lift r) s = pure r s.
Proof. by destruct r. Qed.

(** A coroutine that awaits one request and reshapes the answer runs as the
    blocking code that makes the request and reshapes the answer. *)
Lemma run_request_then {A} (r : Request) (f : value → result A) (s : S) :
  run_until_complete http (data ← await (AwaitRequest r); lift (f data)) s
  = ((data ← request http r; pure (f data)) : M S A) s.
Proof.
  rewrite run_bind. unfold mbind, M_bind. rewrite run_await_request.
  destruct (request http r s) as [[e|b] s']; [reflexivity|]. apply run_lift.
Qed.

Lemma run_request_unit (r : Request) (s : S) :
  run_until_complete http (_ ← await (AwaitRequest r); mret tt) s
  = ((_ ← request http r; mret tt) : M S unit) s.
Proof.
  rewrite run_bind. unfold mbind, M_bind. rewrite run_await_request.
  by destruct (request http r s) as [[e|b] s'].
Qed.

End run_facts.

(** C5. For every facade operation, every choice of arguments, every
    client and every client state, driving the coroutine of the [Async]
    class to completion is the blocking method of the sync class: the same
    calls reach the client, in the same order and with the same method,
    path, body and params, the same typed result or exception comes back,
    and the client is left in the same state.  On the recording client this
    says that the two variants put the same requests on the wire. *)
Theorem sync_async_agree :
  ∀ (ImportContactItem MediaFile : Type)
    (model_dump_exclude_none : ImportContactItem → dict)
    (MediaFile_init : dict → string + MediaFile)
    (S : Type) (http : Client S) (A : Type)
    (op : operation ImportContactItem MediaFile A) (s : S),
    run_until_complete http
      (async model_dump_exclude_none MediaFile_init http op) s
    = sync model_dump_exclude_none MediaFile_init http op s.
Proof.
  intros I MF dump init S http A op s.
  destruct op; cbn [async sync];
    try apply run_request_then; try apply run_request_unit.
  (* media upload: post, rate-limit bookkeeping, parse, construct *)
  unfold AsyncMediaResource.upload, MediaResource.upload.
  rewrite run_bind, !M_bind_eq, run_await_post.
  destruct (client_post http _ s) as [[e|response] s1]; [reflexivity|].
  rewrite run_bind, !M_bind_eq, run_call. cbn [perform_call modify].
  rewrite run_bind, !M_bind_eq, run_call. cbn [perform_call].
  destruct (_parse_response http response _) as [[e|data] s2]; [reflexivity|].
  apply run_lift.
Qed.

(* ===================================================================== *)
(** ** Request construction *)
(* ===================================================================== *)

Lemma lookup_set_if_ne {A} `{ToValue A} (c : bool) (key k : string) (x : A) (d : dict) :
  key ≠ k → set_if c key x d !! k = d !! k.
Proof. intros. unfold set_if. destruct c; [by rewrite lookup_insert_ne|done]. Qed.

Lemma set_if_truthy_None {A} `{Truthy A, ToValue A} (key : string) (d : dict) :
  set_if (truthy (None : option A)) key (None : option A) d = d.
Proof. reflexivity. Qed.

Lemma set_if_is_not_None_None {A} `{ToValue A} (key : string) (d : dict) :
  set_if (is_not_None (None : option A)) key (None : option A) d = d.
Proof. reflexivity. Qed.

Lemma not_in_keys_None (k : string) : k ∉ keys_of None.
Proof. apply not_elem_of_empty. Qed.

Lemma not_in_keys_Some (d : dict) (k : string) :
  d !! k = None → k ∉ keys_of (Some d).
Proof. intros. by apply not_elem_of_dom. Qed.

Lemma not_in_keys_or_None (d : dict) (k : string) :
  d !! k = None → k ∉ keys_of (or_None d).
Proof.
  intros. unfold or_None. destruct (truthy d); [by apply not_elem_of_dom|].
  apply not_elem_of_empty.
Qed.

Section requests.
Context {I MF : Type} (dump : I → dict) (init : dict → string + MF).
Context (key : string) (hdrs : string → string → string)
        (answer : Request → result value) (posted : Post → result Response)
        (parse : Response → result value).

#[local] Abbreviation http := (recorder key hdrs answer posted parse).

(** A method that makes one request puts exactly that request on the wire,
    whatever the answer. *)
Lemma wire_request_then {A} (r : Request) (f : value → result A) (log : list sent) :
  snd (((data ← request http r; pure (f data)) : M _ A) log)
  = (log ++ [SentRequest r])%list.
Proof. rewrite M_bind_eq. cbn. by destruct (answer r). Qed.

Lemma wire_request_unit (r : Request) (log : list sent) :
  snd (((_ ← request http r; mret tt) : M _ unit) log)
  = (log ++ [SentRequest r])%list.
Proof. rewrite M_bind_eq. cbn. by destruct (answer r). Qed.

Lemma wire_upload (file : BinaryIO) (ct : option string) :
  wire dump init http (media_upload file ct)
  = [SentPost (mkPost "/media"
       {[ "file" := mkFilePart (default (VStr "upload") (name file)) file
                      (default "image/jpeg" ct) ]}
       {[ "Authorization" := "Bearer " ++ key;
          "Accept" := "application/json";
          "User-Agent" := hdrs "User-Agent" "" ]})].
Proof.
  unfold wire. cbn [sync]. unfold MediaResource.upload.
  rewrite M_bind_eq. cbn. destruct (posted _) as [e|response]; [reflexivity|].
  rewrite M_bind_eq. cbn. rewrite M_bind_eq. cbn.
  by destruct (parse response).
Qed.

Lemma omitted_keys_not_sent {A} (op : operation I MF A) (k : string) (x : sent) :
  k ∈ omitted op → x ∈ wire dump init http op → k ∉ sent_keys x.
Proof.
  intros Hk Hx.
  destruct op; cbn [omitted] in Hk;
    try (apply elem_of_nil in Hk; contradiction).
  (* the upload: its only form field is [file] *)
  14: { rewrite wire_upload in Hx. apply list_elem_of_singleton in Hx. subst x.
        cbn [sent_keys files]. rewrite dom_singleton_L.
        match goal with o : option string |- _ => destruct o end;
          cbn [absent] in Hk; [apply elem_of_nil in Hk; contradiction|].
        apply list_elem_of_singleton in Hk. subst k.
        by rewrite elem_of_singleton. }
  (* the others: one request, built by [set_if] *)
  all: unfold wire in Hx; cbn [sync] in Hx; autounfold with facade in Hx;
    cbv zeta in Hx; rewrite wire_request_then in Hx;
    apply list_elem_of_singleton in Hx; subst x;
    cbn [sent_keys json params]; apply not_elem_of_union.
  all: repeat match goal with o : option _ |- _ => destruct o end;
    cbn [absent app] in Hk.
  all: repeat match goal with
       | H : _ ∈ [] |- _ => apply elem_of_nil in H; contradiction
       | H : _ ∈ _ :: _ |- _ => apply elem_of_cons in H; destruct H as [->|H]
       end.
  all: split;
    first [apply not_in_keys_None | apply not_in_keys_Some | apply not_in_keys_or_None].
  all: repeat first [ rewrite set_if_truthy_None | rewrite set_if_is_not_None_None
                    | rewrite lookup_set_if_ne by done ]; reflexivity.
Qed.

(** C3. [CampaignsResource.list(limit=10, offset=0, status=None)] makes one
    request, [GET /campaigns], whose query params are exactly
    [{"limit": 10}]: the offset 0 is falsy and left out, and so is the
    absent status. *)
Theorem campaigns_list_omits_falsy_offset :
  wire dump init http (campaigns_list (Some 10) (Some 0) None)
  = [SentRequest
       (mkRequest "GET" "/campaigns" None (Some {[ "limit" := VInt 10 ]}))].
Proof.
  unfold wire. cbn [sync]. unfold CampaignsResource.list.
  rewrite wire_request_then. reflexivity.
Qed.

(** C4. For every facade operation, a key whose optional parameter the
    caller left out is a key of no request the operation sends (neither of
    the JSON body nor of the query params); and
    [create("Welcome", "Hello {{name}}!", ["lst_1"])] without a template id
    sends exactly the body with [name], [text] and [contactListIds]. *)
Theorem omit_absent :
  (∀ A (op : operation I MF A) (k : string) (x : sent),
     k ∈ omitted op → x ∈ wire dump init http op → k ∉ sent_keys x)
  ∧ wire dump init http (campaigns_create "Welcome" "Hello {{name}}!" ["lst_1"] None)
    = [SentRequest
         (mkRequest "POST" "/campaigns"
            (Some {[ "name" := VStr "Welcome";
                     "text" := VStr "Hello {{name}}!";
                     "contactListIds" := VList [VStr "lst_1"] ]})
            None)].
Proof.
  split.
  - intros A op k x. apply omitted_keys_not_sent.
  - unfold wire. cbn [sync]. unfold CampaignsResource.create.
    rewrite wire_request_then. reflexivity.
Qed.

(** C7. Every call of the media upload sends one multipart post whose files
    mapping has exactly one part, under the name [file], carrying the file
    and the content type the caller supplied (the signature's default
    ["image/jpeg"] when the caller supplied none). *)
Theorem upload_one_file_part (f : BinaryIO) (ct : option string) :
  ∃ (p : Post) (part : FilePart),
    wire dump init http (media_upload f ct) = [SentPost p]
    ∧ files p = {[ "file" := part ]}
    ∧ dom (files p) = {[ "file" ]}
    ∧ file part = f
    ∧ content_type part = default "image/jpeg" ct
    ∧ (∀ supplied, ct = Some supplied → content_type part = supplied).
Proof.
  eexists _, _. split; [apply wire_upload|]. cbn [files file content_type].
  split; [reflexivity|]. split; [apply dom_singleton_L|].
  split; [reflexivity|]. split; [reflexivity|]. by intros supplied ->.
Qed.

Lemma dict_truthy_cases (d : dict) : d = ∅ ∨ truthy d = true.
Proof.
  destruct (truthy d) eqn:E; [by right|left].
  unfold truthy, dict_truthy in E.
  destruct (map_to_list d) eqn:El; [by apply map_to_list_empty_iff|discriminate E].
Qed.

(** The body of every method that builds one is the body its rule gives:
    the entries it always sets, and each optional argument that passes the
    method's test, under its wire key and with its value. *)
Lemma bodies_follow_their_rule {A} (op : operation I MF A) (rule : body_rule) :
  body_rule_of dump op = Some rule →
  ∃ verb path,
    wire dump init http op
    = [SentRequest (mkRequest verb path (Some (expected_body rule)) None)].
Proof.
  intros Hr.
  destruct op; cbn [body_rule_of] in Hr; try discriminate Hr; injection Hr as <-.
  all: eexists _, _; unfold wire; cbn [sync]; autounfold with facade; cbv zeta;
    rewrite wire_request_then; cbn [app];
    apply (f_equal (λ b, [SentRequest (mkRequest _ _ (Some b) None)])).
  all: unfold expected_body;
    cbn [test required_entries optional_entries].
  all: repeat match goal with
       | o : option string |- _ => destruct o as [[|? ?]|]
       | o : option Z |- _ => destruct o as [[|?|?]|]
       | o : option (list string) |- _ => destruct o
       | o : option dict |- _ =>
           destruct o as [m|];
           [destruct (dict_truthy_cases m) as [->|Hm]|]
       end.
  all: try (change (truthy (Some m)) with (truthy m); rewrite Hm).
  all: cbn -[truthy];
    try (change (truthy (VDict m)) with (truthy m); rewrite Hm);
    reflexivity.
Qed.

(** C9. Create-style methods test truthiness and update-style methods
    test [is not None]: [ContactsResource.create(phone_number, name="")]
    sends a body without the [name] key, and
    [ContactsResource.update(contact_id, name="")] a body whose [name] is
    the empty string.  For every create-style method
    ([CampaignsResource.create], [ContactListsResource.create],
    [ContactsResource.create], and the other methods that build a body the
    same way) and every update-style method ([CampaignsResource.update],
    [ContactListsResource.update], [ContactsResource.update]), and for
    every optional argument of theirs, the body is exactly the required
    entries and the optional arguments that pass the method's test, a truthy
    value for the former and any value but [None] for the latter, each under
    its wire key with its value. *)
Theorem create_tests_truthiness_update_tests_None
    (phone_number contact_id : string) (name email : option string)
    (metadata : option dict) :
  wire dump init http (contacts_create phone_number (Some "") None None)
  = [SentRequest
       (mkRequest "POST" "/contacts"
          (Some {[ "phone_number" := VStr phone_number ]}) None)]
  ∧ wire dump init http (contacts_update contact_id (Some "") None None)
    = [SentRequest
         (mkRequest "PATCH" ("/contacts/" ++ contact_id)
            (Some {[ "name" := VStr "" ]}) None)]
  ∧ (∃ body : dict,
       wire dump init http (contacts_create phone_number name email metadata)
       = [SentRequest (mkRequest "POST" "/contacts" (Some body) None)]
       ∧ body !! "name" = (if truthy name then Some (to_value name) else None))
  ∧ (∃ body : dict,
       wire dump init http (contacts_update contact_id name email metadata)
       = [SentRequest
            (mkRequest "PATCH" ("/contacts/" ++ contact_id) (Some body) None)]
       ∧ body !! "name" = (if is_not_None name then Some (to_value name) else None))
  ∧ (∀ A (op : operation I MF A) (rule : body_rule),
       body_rule_of dump op = Some rule →
       ∃ verb path,
         wire dump init http op
         = [SentRequest
              (mkRequest verb path (Some (expected_body rule)) None)]).
Proof.
  split; [|split; [|split; [|split]]].
  5: { intros A op rule. apply bodies_follow_their_rule. }
  all: unfold wire; cbn [sync];
    unfold ContactsResource.create, ContactsResource.update;
    rewrite !wire_request_then; try reflexivity.
  - eexists. split; [reflexivity|].
    rewrite !lookup_set_if_ne by done. unfold set_if.
    destruct (truthy name); [by rewrite lookup_insert_eq|reflexivity].
  - eexists. split; [reflexivity|].
    rewrite !lookup_set_if_ne by done. unfold set_if.
    destruct (is_not_None name); [by rewrite lookup_insert_eq|reflexivity].
Qed.

End requests.

(* ===================================================================== *)
(** ** Response reshaping *)
(* ===================================================================== *)

Lemma comprehension_length {A B} (f : A → result B) (xs : list A) (ys : list B) :
  comprehension f xs = inr ys → length ys = length xs.
Proof.
  revert ys. induction xs as [|x xs IH]; intros ys H; cbn in H.
  - by injection H as <-.
  - destruct (f x) as [e|y]; cbn in H; [discriminate H|].
    destruct (comprehension f xs) as [e|ys']; cbn in H; [discriminate H|].
    injection H as <-. cbn. f_equal. by apply IH.
Qed.




Section reshaping.
Context {I MF : Type} (dump : I → dict) (init : dict → string + MF).


(** On the answering service, a method that makes one request returns the
    reshaping of the answer. *)
Lemma answered_request_then {A} (data : value) (r : Request)
    (f : value → result A) (log : list sent) :
  fst (((x ← request (answering data) r; pure (f x)) : M _ A) log) = f data.
Proof. reflexivity. Qed.

(** X8. Every operation but the upload is one request followed by a
    reshaping that does not depend on the client: on any client, the method makes the
    request the recording client records and returns what it returns on the
    answering service. *)
Lemma sync_is_request_then_reshape {A} (op : operation I MF A) :
  match op with
  | media_upload _ _ => True
  | _ =>
      ∃ r : Request, ∀ (S : Type) (http : Client S) (s : S),
        sync dump init http op s
        = match request http r s with
          | (inl e, s') => (inl e, s')
          | (inr data, s') => (reshaped dump init op data, s')
          end
  end.
Proof.
  destruct op; try exact Logic.I; eexists; intros S http s;
    cbn [sync]; autounfold with facade; cbv zeta; rewrite M_bind_eq;
    reflexivity.
Qed.

(** C8. When the response mapping of [VerifyResource.check] has no
    [remaining_attempts] key, the [remaining_attempts] of the typed result
    is [None], not zero. *)
Theorem check_remaining_attempts_absent (verification_id code : string)
    (d : dict) (r : CheckVerificationResponse.t) :
  d !! "remaining_attempts" = None →
  reshaped dump init (verify_check verification_id code) (VDict d) = inr r →
  CheckVerificationResponse.remaining_attempts r = VNone
  ∧ CheckVerificationResponse.remaining_attempts r ≠ VInt 0.
Proof.
  intros Hd Hr. unfold reshaped in Hr. cbn [sync] in Hr.
  unfold VerifyResource.check in Hr. rewrite answered_request_then in Hr.
  cbn -[from_option] in Hr. required Hr. injection Hr as <-.
  cbn. rewrite Hd. by split.
Qed.

(** A response mapping with the three required keys is accepted. *)
Lemma check_accepts (verification_id code : string) (d : dict) (i st ph : value) :
  d !! "id" = Some i → d !! "status" = Some st → d !! "phone" = Some ph →
  reshaped dump init (verify_check verification_id code) (VDict d)
  = inr (CheckVerificationResponse.mk i st ph
           (default VNone (d !! "verified_at"))
           (default VNone (d !! "remaining_attempts"))).
Proof.
  intros Hi Hs Hp. unfold reshaped. cbn [sync]. unfold VerifyResource.check.
  rewrite answered_request_then. cbn -[from_option]. by rewrite Hi, Hs, Hp.
Qed.

(** C2. A response mapping without the required [id] makes
    [CampaignsResource.get] raise the bare [KeyError] of the subscript; no
    [SendlyError] wraps it. *)
Theorem campaigns_get_raises_bare_KeyError :
  reshaped dump init (campaigns_get "cmp_1") (VDict ∅) = inl (KeyError "id").
Proof. reflexivity. Qed.

(** The upload is the one method that wraps: a mapping the [MediaFile]
    constructor rejects becomes a [SendlyError] with code
    [invalid_response] whose message includes the text of the validation
    error and whose cause is that error. *)
Lemma upload_wraps_validation_error (f : BinaryIO) (ct : option string)
    (d : dict) (msg : string) :
  init d = inl msg →
  reshaped dump init (media_upload f ct) (VDict d)
  = inl (SendlyError ("Invalid API response format: " ++ msg) "invalid_response"
           200 (Some (PydanticValidationError msg))).
Proof.
  intros Hd. unfold reshaped. cbn [sync]. unfold MediaResource.upload.
  repeat (rewrite M_bind_eq; cbn -[construct]).
  unfold construct. by rewrite Hd.
Qed.

(** C1, as amended. For every list-returning method and every response
    mapping it accepts: the number of items of the typed result is the
    length of the item array of the mapping; the result carries exactly the
    pagination attributes of its method, each with the value the mapping
    has under that name: [total], [limit] and [offset] for campaigns and
    contacts, the single [pagination] for verifications, and none for
    contact lists. *)
Theorem list_result_bundles {A} (op : operation I MF A) (l : listing A)
    (d : dict) (r : A) :
  list_method op = Some l →
  reshaped dump init op (VDict d) = inr r →
  (∃ raw, d !! items_key l = Some raw ∧ len raw = inr (item_count l r))
  ∧ (∀ k, k ∈ pagination_names l → passes_through d (list_metadata l r) k)
  ∧ (∀ k, is_Some (getattr (list_metadata l r) k) → k ∈ pagination_names l).
Proof.
  intros Hl Hr.
  destruct op; cbn [list_method] in Hl; try discriminate Hl;
    injection Hl as <-;
    cbn [items_key item_count list_metadata pagination_names];
    unfold reshaped in Hr; cbn [sync] in Hr; autounfold with facade in Hr;
    cbv zeta in Hr; rewrite answered_request_then in Hr;
    cbn -[iter comprehension] in Hr; unfold mbind, result_bind in Hr;
    repeat list_step Hr; injection Hr as <-.
  all: split; [|split].
  all: try (eexists; split; [reflexivity|]; unfold len;
            match goal with H : iter _ = inr _ |- _ => rewrite H end; cbn;
            f_equal; symmetry; by eapply comprehension_length).
  all: try (intros k Hk; unfold passes_through, getattr; cbn;
            repeat (apply elem_of_cons in Hk; destruct Hk as [->|Hk];
                    [by eexists|]);
            by apply elem_of_nil in Hk).
  all: intros k [got Hv]; unfold getattr in Hv; cbn -[String.eqb] in Hv;
    repeat match type of Hv with
      | context [String.eqb ?n k] =>
          destruct (String.eqb_spec n k) as [<-|_]; [set_solver|]
      end; discriminate Hv.
Qed.

End reshaping.

(** C10. A response mapping whose [lists] key (for a contact) or [contacts]
    key (for a contact list) is bound to an empty array is reshaped exactly
    as the mapping without that key, and the attribute of the typed result
    is [None] in both cases. *)
Theorem empty_collection_is_None (d : dict) :
  ContactsResource._transform_contact (VDict (<["lists" := VList []]> d))
  = ContactsResource._transform_contact (VDict (delete "lists" d))
  ∧ ContactListsResource._transform_list (VDict (<["contacts" := VList []]> d))
    = ContactListsResource._transform_list (VDict (delete "contacts" d))
  ∧ (∀ c, ContactsResource._transform_contact (VDict (<["lists" := VList []]> d))
          = inr c → Contact.lists c = VNone)
  ∧ (∀ l, ContactListsResource._transform_list
            (VDict (<["contacts" := VList []]> d)) = inr l →
          ContactList.contacts l = VNone).
Proof.
  assert (∀ r, ContactsResource._transform_contact
                 (VDict (<["lists" := VList []]> d)) = r →
               ContactsResource._transform_contact (VDict (delete "lists" d)) = r
               ∧ ∀ c, r = inr c → Contact.lists c = VNone) as Hc.
  { intros r <-. unfold ContactsResource._transform_contact.
    cbn -[from_option]. rewrite lookup_insert_eq, lookup_delete_eq.
    cbn -[from_option]. rewrite !lookup_insert_ne, !lookup_delete_ne by done.
    split; [reflexivity|]. intros c Hc. required Hc. by injection Hc as <-. }
  assert (∀ r, ContactListsResource._transform_list
                 (VDict (<["contacts" := VList []]> d)) = r →
               ContactListsResource._transform_list (VDict (delete "contacts" d)) = r
               ∧ ∀ l, r = inr l → ContactList.contacts l = VNone) as Hl.
  { intros r <-. unfold ContactListsResource._transform_list.
    cbn -[from_option]. rewrite lookup_insert_eq, lookup_delete_eq.
    cbn -[from_option]. rewrite !lookup_insert_ne, !lookup_delete_ne by done.
    split; [reflexivity|]. intros l Hl. required Hl. by injection Hl as <-. }
  destruct (Hc _ eq_refl) as [Hc1 Hc2]. destruct (Hl _ eq_refl) as [Hl1 Hl2].
  repeat split; [by rewrite Hc1 | by rewrite Hl1 | exact Hc2 | exact Hl2].
Qed.

(* ===================================================================== *)
(** ** Concrete inputs *)
(* ===================================================================== *)

(** C1 in its unrestricted form fails: [ContactListsResource.list] on a response
    that carries [total], [limit] and [offset] next to an empty [lists]
    returns a [ContactListsResponse] with no attribute but [lists]. *)
Lemma contact_lists_list_has_no_pagination :
  reshaped no_items no_media contact_lists_list (VDict sample_lists_page)
  = inr (ContactListsResponse.mk [])
  ∧ getattr (ContactListsResponse.metadata (ContactListsResponse.mk [])) "total"
    = None
  ∧ ¬ every_list_has_total_limit_offset no_items no_media.
Proof.
  split; [reflexivity|]. split; [reflexivity|]. intros H.
  destruct (H _ contact_lists_list _ sample_lists_page (ContactListsResponse.mk [])
              eq_refl eq_refl "total") as [v [_ Hv]].
  - left.
  - discriminate Hv.
Qed.

(** A page of one campaign is accepted and bundles as C1 says. *)
Lemma list_result_bundles_witness :
  ∃ r : CampaignListResponse.t,
    reshaped no_items no_media (campaigns_list None None None)
      (VDict sample_campaigns_page) = inr r
    ∧ (∃ raw, sample_campaigns_page !! "campaigns" = Some raw
              ∧ len raw = inr (length (CampaignListResponse.campaigns r)))
    ∧ (∀ k, k ∈ ["total"; "limit"; "offset"] →
            passes_through sample_campaigns_page (CampaignListResponse.metadata r) k)
    ∧ (∀ k, is_Some (getattr (CampaignListResponse.metadata r) k) →
            k ∈ ["total"; "limit"; "offset"]).
Proof.
  eexists. split; [reflexivity|].
  apply (list_result_bundles no_items no_media (campaigns_list None None None)
           (mkListing "campaigns" (λ r, length (CampaignListResponse.campaigns r))
              CampaignListResponse.metadata ["total"; "limit"; "offset"])
           sample_campaigns_page); reflexivity.
Defined.


(** [templateId] is left out of the body when no template id is given. *)
Lemma omit_absent_witness :
  "templateId" ∈ omitted (campaigns_create (ImportContactItem:=Empty_set) (MediaFile:=Empty_set)
                            "Welcome" "Hello {{name}}!" ["lst_1"] None)
  ∧ "templateId"
    ∉ sent_keys
        (SentRequest
           (mkRequest "POST" "/campaigns"
              (Some {[ "name" := VStr "Welcome";
                       "text" := VStr "Hello {{name}}!";
                       "contactListIds" := VList [VStr "lst_1"] ]})
              None)).
Proof.
  split; [left|].
  apply (proj1 (omit_absent no_items no_media "sk_test_v1_key" (λ _ dflt, dflt)
                  (λ _, ok (VDict sample_campaign))
                  (λ _, ok (mkResponse 200 ∅ []))
                  (λ _, ok (VDict sample_campaign)))
           _ (campaigns_create "Welcome" "Hello {{name}}!" ["lst_1"] None)).
  - left.
  - left.
Defined.

(** A check response with the three required keys only. *)
Lemma check_remaining_attempts_absent_witness :
  sample_check !! "remaining_attempts" = None
  ∧ ∃ r : CheckVerificationResponse.t,
      reshaped no_items no_media (verify_check "ver_1" "123456") (VDict sample_check)
      = inr r
      ∧ CheckVerificationResponse.remaining_attempts r = VNone
      ∧ CheckVerificationResponse.remaining_attempts r ≠ VInt 0.
Proof.
  split; [reflexivity|]. eexists. split; [reflexivity|].
  apply (check_remaining_attempts_absent no_items no_media "ver_1" "123456"
           sample_check); reflexivity.
Defined.

(** A contact whose [lists] is empty, and the same contact without [lists]. *)
Lemma empty_collection_is_None_witness :
  ∃ c : Contact.t,
    ContactsResource._transform_contact
      (VDict (<["lists" := VList []]> sample_contact)) = inr c
    ∧ ContactsResource._transform_contact (VDict (delete "lists" sample_contact))
      = inr c
    ∧ Contact.lists c = VNone.
Proof.
  eexists. split; [reflexivity|]. split; [reflexivity|].
  apply (proj1 (proj2 (proj2 (empty_collection_is_None sample_contact)))).
  reflexivity.
Defined.

(* ===================================================================== *)
(** ** Further properties of request construction *)
(* ===================================================================== *)

Lemma set_if_Forall {A} `{ToValue A} (P : string → value → Prop) (c : bool)
    (key : string) (x : A) (d : dict) :
  map_Forall P d → (c = true → P key (to_value x)) → map_Forall P (set_if c key x d).
Proof.
  intros Hd Hx. unfold set_if. destruct c; [|done].
  apply map_Forall_insert_2; auto.
Qed.

Lemma or_None_Forall (P : string → value → Prop) (d : dict) :
  map_Forall P d → map_Forall P (default ∅ (or_None d)).
Proof.
  intros Hd. unfold or_None. destruct (truthy d); cbn; [done|].
  apply map_Forall_empty.
Qed.

Lemma dict_truthy_false (d : dict) : truthy d = false ↔ d = ∅.
Proof.
  unfold truthy, dict_truthy. rewrite <- (map_to_list_empty_iff d).
  destruct (map_to_list d); split; intros; congruence.
Qed.

Lemma or_None_None (d : dict) : or_None d = None ↔ d = ∅.
Proof.
  unfold or_None. rewrite <- dict_truthy_false.
  destruct (truthy d); split; intros; congruence.
Qed.

Lemma set_if_empty {A} `{ToValue A} (c : bool) (key : string) (x : A) (d : dict) :
  set_if c key x d = ∅ ↔ c = false ∧ d = ∅.
Proof.
  unfold set_if. destruct c.
  - split; [intros E; by apply insert_non_empty in E|intros [? _]; congruence].
  - split; [by intros ->|by intros [_ ->]].
Qed.

Lemma lookup_set_if_eq {A} `{ToValue A} (c : bool) (key : string) (x : A) (d : dict) :
  d !! key = None →
  set_if c key x d !! key = (if c then Some (to_value x) else None).
Proof.
  intros Hd. unfold set_if. destruct c; [by rewrite lookup_insert_eq|done].
Qed.

Section more_requests.
Context {I MF : Type} (dump : I → dict) (init : dict → string + MF).
Context (key : string) (hdrs : string → string → string)
        (answer : Request → result value) (posted : Post → result Response)
        (parse : Response → result value).

#[local] Abbreviation http := (recorder key hdrs answer posted parse).

(** Unfolding an operation other than the upload to the one request it
    records. *)
Ltac one_request :=
  unfold wire; cbn [sync]; autounfold with facade; cbv zeta;
  first [rewrite wire_request_then | rewrite wire_request_unit]; cbn [app].

(** X1. Every facade operation makes exactly one call to the transport,
    whatever the service answers: one [request], or for the upload one
    multipart post. *)
Theorem one_call_per_operation {A} (op : operation I MF A) :
  match op with
  | media_upload _ _ => ∃ p, wire dump init http op = [SentPost p]
  | _ => ∃ r, wire dump init http op = [SentRequest r]
  end.
Proof.
  destruct op; try (eexists; one_request; reflexivity).
  eexists. apply wire_upload.
Qed.

(** X2. No operation sends a [None] entry: every value in a JSON body or
    in query params is an actual value. *)
Theorem never_sends_null {A} (op : operation I MF A) :
  Forall no_null (wire dump init http op).
Proof.
  destruct op; try (rewrite wire_upload; by apply Forall_singleton).
  all: one_request; apply Forall_singleton; cbn [no_null json params default from_option id].
  all: split; try apply map_Forall_empty; try apply or_None_Forall.
  all: repeat (apply set_if_Forall;
               [|match goal with
                 | |- truthy ?o = true → _ => destruct o; cbn; intros; done
                 | |- is_not_None ?o = true → _ => destruct o; cbn; intros; done
                 end]).
  all: repeat (first [apply map_Forall_empty
                     | apply map_Forall_singleton
                     | apply map_Forall_insert_2]; try done).
Qed.

(** X3. Query params are sent with [GET] only and a JSON body with [POST]
    and [PATCH] only; [DELETE] carries neither, and the upload posts to
    [/media]. *)
Theorem verbs_and_payloads {A} (op : operation I MF A) :
  Forall verb_shape (wire dump init http op).
Proof.
  destruct op; try (rewrite wire_upload; by apply Forall_singleton).
  all: one_request; apply Forall_singleton; cbn; tauto.
Qed.

End more_requests.

Section more_requests_2.
Context {I MF : Type} (dump : I → dict) (init : dict → string + MF).
Context (key : string) (hdrs : string → string → string)
        (answer : Request → result value) (posted : Post → result Response)
        (parse : Response → result value).

#[local] Abbreviation http := (recorder key hdrs answer posted parse).

(** X4. When every filter of a listing is falsy ([None], [0] or the empty
    string), [CampaignsResource.list], [ContactsResource.list] and
    [ContactListsResource.get] pass [params=None], and only then;
    [VerifyResource.list] always passes a mapping, empty when both filters
    are falsy. *)
Theorem falsy_filters_send_no_params (limit offset : option Z)
    (status search list_id : option string) (id : string) :
  (∃ p, wire dump init http (campaigns_list limit offset status)
        = [SentRequest (mkRequest "GET" "/campaigns" None p)]
        ∧ (p = None ↔ truthy limit = false ∧ truthy offset = false
                      ∧ truthy status = false))
  ∧ (∃ p, wire dump init http (contacts_list limit offset search list_id)
          = [SentRequest (mkRequest "GET" "/contacts" None p)]
          ∧ (p = None ↔ truthy limit = false ∧ truthy offset = false
                        ∧ truthy search = false ∧ truthy list_id = false))
  ∧ (∃ p, wire dump init http (contact_lists_get id limit offset)
          = [SentRequest (mkRequest "GET" ("/contact-lists/" ++ id) None p)]
          ∧ (p = None ↔ truthy limit = false ∧ truthy offset = false))
  ∧ (∃ d : dict, wire dump init http (verify_list limit status)
          = [SentRequest (mkRequest "GET" "/verify" None (Some d))]
          ∧ (d = ∅ ↔ truthy limit = false ∧ truthy status = false)).
Proof.
  repeat split; eexists;
    (split; [unfold wire; cbn [sync]; autounfold with facade; cbv zeta;
             rewrite wire_request_then; reflexivity|]);
    rewrite ?or_None_None, !set_if_empty; tauto.
Qed.

(** X5. The body of [CampaignsResource.update] holds exactly the arguments
    that are not [None], each under its wire key with its value, empty
    values included; with no argument the request is still made, with the
    empty body. *)
Theorem campaigns_update_body (campaign_id : string)
    (name text template_id : option string) (contact_list_ids : option (list string)) :
  ∃ body : dict,
    wire dump init http
      (campaigns_update campaign_id name text template_id contact_list_ids)
    = [SentRequest
         (mkRequest "PATCH" ("/campaigns/" ++ campaign_id) (Some body) None)]
    ∧ body !! "name" = VStr <$> name
    ∧ body !! "text" = VStr <$> text
    ∧ body !! "templateId" = VStr <$> template_id
    ∧ body !! "contactListIds" = (λ ids, VList (VStr <$> ids)) <$> contact_list_ids
    ∧ dom body ⊆ {[ "name"; "text"; "templateId"; "contactListIds" ]}
    ∧ (body = ∅ ↔ name = None ∧ text = None ∧ template_id = None
                  ∧ contact_list_ids = None).
Proof.
  eexists. split.
  { unfold wire. cbn [sync]. unfold CampaignsResource.update.
    rewrite wire_request_then. reflexivity. }
  destruct name, text, template_id, contact_list_ids; cbn [is_not_None set_if].
  all: repeat split; try reflexivity.
  all: match goal with
       | |- dom _ ⊆ _ => rewrite ?dom_insert_L, ?dom_empty_L; set_solver
       | E : <[_ := _]> _ = ∅ |- _ => by apply insert_non_empty in E
       | |- _ ∧ _ → _ => intros (? & ? & ? & ?); discriminate
       end.
Qed.

(** X6. Identifiers are put in the path as they are, with no escaping: an
    identifier that contains a slash reaches another endpoint.
    [get(id + "/preview")] requests the URL of [preview(id)], and
    [ContactListsResource.delete(l + "/contacts/" + c)] sends the request of
    [remove_contact(l, c)]. *)
Theorem identifiers_are_not_escaped (campaign_id list_id contact_id : string) :
  wire dump init http (campaigns_get (campaign_id ++ "/preview"))
  = wire dump init http (campaigns_preview campaign_id)
  ∧ wire dump init http
      (contact_lists_delete (list_id ++ "/contacts/" ++ contact_id))
    = wire dump init http (contact_lists_remove_contact list_id contact_id).
Proof.
  split; unfold wire; cbn [sync]; autounfold with facade;
    rewrite ?wire_request_then, ?wire_request_unit; reflexivity.
Qed.

(** X7. The upload sends as filename the [name] attribute of the file
    object as it is, a string or not ([None] included), and ["upload"]
    only when the object has no such attribute; and it authenticates the
    post itself: the headers are exactly [Authorization: Bearer <api key>],
    [Accept: application/json] and [User-Agent], the last with the value
    [client.headers.get("User-Agent", "")] returns. *)
Theorem upload_filename_and_headers (f : BinaryIO) (ct : option string) :
  ∃ (p : Post) (part : FilePart),
    wire dump init http (media_upload f ct) = [SentPost p]
    ∧ url p = "/media"
    ∧ files p !! "file" = Some part
    ∧ (∀ n, name f = Some n → filename part = n)
    ∧ (name f = None → filename part = VStr "upload")
    ∧ dom (post_headers p) = {[ "Authorization"; "Accept"; "User-Agent" ]}
    ∧ post_headers p !! "Authorization" = Some ("Bearer " ++ key)
    ∧ post_headers p !! "Accept" = Some "application/json"
    ∧ post_headers p !! "User-Agent" = Some (hdrs "User-Agent" "").
Proof.
  eexists _, _. split; [apply wire_upload|]. cbn [url files post_headers].
  split; [reflexivity|]. split; [apply lookup_singleton_eq|].
  cbn [filename]. split; [by intros n ->|]. split; [by intros ->|].
  split; [|by repeat split].
  rewrite !dom_insert_L, dom_singleton_L. set_solver.
Qed.

End more_requests_2.

(* ===================================================================== *)
(** ** Further properties of response reshaping *)
(* ===================================================================== *)

Section more_reshaping.
Context {I MF : Type} (dump : I → dict) (init : dict → string + MF).

(** Unfolding [reshaped] to the reshaping of the answer. *)
Ltac to_reshaping :=
  unfold reshaped; cbn [sync]; autounfold with facade; cbv zeta;
  rewrite ?answered_request_then.
Ltac to_reshaping_in H :=
  unfold reshaped in H; cbn [sync] in H; autounfold with facade in H;
  cbv zeta in H; rewrite ?answered_request_then in H.

(** X10. Required keys are checked in the order the code subscripts them,
    before the typed constructor is called: a response mapping that lacks
    some makes the operation raise the [KeyError] of the first one missing,
    whatever the model; with a mapping that has them all every keyword
    argument is evaluated, and the outcome is the constructor's, its object
    or its [ValidationError], unwrapped.  ([add_contacts] returns a plain
    mapping: there the constructor is the identity.) *)
Theorem first_missing_key_raises {A O} (op : operation I MF A) (keys : list string)
    (d : dict) (validate : validator A O) :
  required_keys op = Some keys →
  match first_missing keys d with
  | Some k =>
      reshaped dump init op (VDict d) = inl (KeyError k)
      ∧ constructed validate (reshaped dump init op (VDict d)) = inl (KeyError k)
  | None =>
      ∃ kw, reshaped dump init op (VDict d) = inr kw
            ∧ constructed validate (reshaped dump init op (VDict d))
              = match validate kw with
                | inl msg => inl (PydanticValidationError msg)
                | inr o => inr o
                end
  end.
Proof.
  intros Hk.
  destruct op; cbn [required_keys] in Hk; try discriminate Hk; injection Hk as <-.
  all: to_reshaping; unfold CampaignsResource._transform_campaign, first_missing.
  all: cbn -[from_option constructed].
  all: repeat match goal with
       | |- context [match ?m !! ?k with _ => _ end] =>
           destruct (m !! k); cbn -[from_option constructed]; [|by split]
       end.
  all: eexists; split; [reflexivity|]; unfold constructed; cbn -[from_option];
    by destruct (validate _).
Qed.

(** X11. An optional attribute whose key the response mapping lacks takes
    the default the code gives it: counters are 0, [contact_list_ids] and
    [errors] the empty list, [opted_out] false, and the rest, the rebuilt
    [contacts] and [lists] included, [None]. *)
Theorem absent_keys_take_defaults {A} (op : operation I MF A) (t : typed_object A)
    (d : dict) (r : A) :
  typed_result op = Some t →
  reshaped dump init op (VDict d) = inr r →
  Forall (λ '(k, field, dflt),
            d !! k = None → getattr (attributes t r) field = Some dflt)
         (field_defaults op).
Proof.
  intros Ht Hr.
  destruct op; cbn [typed_result] in Ht; try discriminate Ht;
    injection Ht as <-; cbn [attributes field_defaults];
    to_reshaping_in Hr.
  all: unfold CampaignsResource._transform_campaign,
         ContactListsResource._transform_list,
         ContactsResource._transform_contact in Hr.
  all: unfold campaign_defaults, contact_list_defaults, contact_defaults.
  all: cbn -[from_option iter comprehension] in Hr.
  all: repeat match type of Hr with
       | context [bool_decide (is_Some (?m !! ?k))] =>
           destruct (m !! k) as [raw|] eqn:Hraw;
           cbn -[from_option iter comprehension] in Hr;
           [ destruct (truthy raw) in Hr;
               cbn -[from_option iter comprehension] in Hr;
             [ destruct (iter raw) as [?|items] in Hr;
                 cbn -[from_option iter comprehension] in Hr; [discriminate Hr|];
               destruct (comprehension _ items) as [?|built] in Hr;
                 cbn -[from_option iter comprehension] in Hr; [discriminate Hr|]
             | ]
           | ]
       end.
  all: required Hr; injection Hr as <-.
  all: repeat (apply Forall_cons; split;
               [intros Hk; unfold getattr; cbn -[from_option];
                first [congruence | by rewrite ?Hk]|]).
  all: done.
Qed.
End more_reshaping.

Section more_reshaping_2.
Context {I MF : Type} (dump : I → dict) (init : dict → string + MF).

Ltac to_reshaping :=
  unfold reshaped; cbn [sync]; autounfold with facade; cbv zeta;
  rewrite ?answered_request_then.

(** X12. A response that is not a mapping (a list, a string, a number,
    [null]) makes every operation that reads the response raise
    [TypeError], unwrapped, the upload included; the four delete-style
    operations do not read the response and return [None]. *)
Theorem non_mapping_response_raises_TypeError {A} (op : operation I MF A)
    (data : value) :
  is_mapping data = false →
  match op in operation _ _ A return result A → Prop with
  | campaigns_delete _ | contact_lists_delete _ | contact_lists_remove_contact _ _
  | contacts_delete _ => λ out, out = inr tt
  | _ => λ out, out = inl TypeError
  end (reshaped dump init op data).
Proof.
  intros Hd.
  destruct op; try reflexivity.
  all: destruct data as [| | | |s|l|d]; try discriminate Hd; try reflexivity.
  (* a string or a list: [in] is answered before the subscript fails *)
  all: to_reshaping;
    unfold ContactListsResource._transform_list,
      ContactsResource._transform_contact;
    cbn -[from_option String.index existsb];
    match goal with |- context [if ?b then _ else _] => by destruct b end.
Qed.

(** The delete-style operations return [None] whatever the service
    answers: the response body is never looked at. *)
Lemma delete_ignores_response (id other : string) (data : value) :
  reshaped dump init (campaigns_delete id) data = inr tt
  ∧ reshaped dump init (contact_lists_delete id) data = inr tt
  ∧ reshaped dump init (contact_lists_remove_contact id other) data = inr tt
  ∧ reshaped dump init (contacts_delete id) data = inr tt.
Proof. by repeat split. Qed.

(** X17. On a mapping, the upload returns the [MediaFile] when its
    constructor accepts the mapping, and otherwise a [SendlyError] with
    code [invalid_response] and status 200, whose message ends with the
    text of the validation error and whose cause is that error. *)
Theorem upload_result (f : BinaryIO) (ct : option string) (d : dict) :
  reshaped dump init (media_upload f ct) (VDict d)
  = match init d with
    | inr m => inr m
    | inl msg =>
        inl (SendlyError ("Invalid API response format: " ++ msg)
               "invalid_response" 200 (Some (PydanticValidationError msg)))
    end.
Proof.
  unfold reshaped. cbn [sync]. unfold MediaResource.upload.
  repeat (rewrite M_bind_eq; cbn -[construct]).
  unfold construct. by destruct (init d).
Qed.

(** X18. A key the operation does not look at changes nothing: adding it
    to the response mapping, with any value, gives the same result or the
    same exception. *)
Theorem unread_keys_are_ignored {A} (op : operation I MF A) (keys : list string)
    (d : dict) (k : string) (v : value) :
  response_keys op = Some keys →
  k ∉ keys →
  reshaped dump init op (VDict (<[k := v]> d)) = reshaped dump init op (VDict d).
Proof.
  intros Hkeys Hk.
  destruct op; cbn [response_keys] in Hkeys; try discriminate Hkeys;
    injection Hkeys as <-; try reflexivity.
  all: repeat (apply not_elem_of_cons in Hk;
               let Hne := fresh "Hne" in destruct Hk as [Hne Hk]).
  all: to_reshaping;
    unfold CampaignsResource._transform_campaign,
      ContactListsResource._transform_list,
      ContactsResource._transform_contact.
  all: cbn -[from_option iter comprehension].
  all: by rewrite !lookup_insert_ne by done.
Qed.

End more_reshaping_2.

(** X16. Any falsy value under [lists] (for a contact) or [contacts] (for
    a contact list), [null], [false], [0], the empty string, list or
    mapping, is reshaped exactly as the mapping without the key. *)
Theorem falsy_collection_is_absent (d : dict) (v : value) :
  truthy v = false →
  ContactsResource._transform_contact (VDict (<["lists" := v]> d))
  = ContactsResource._transform_contact (VDict (delete "lists" d))
  ∧ ContactListsResource._transform_list (VDict (<["contacts" := v]> d))
    = ContactListsResource._transform_list (VDict (delete "contacts" d)).
Proof.
  intros Hv. split.
  - unfold ContactsResource._transform_contact.
    cbn -[from_option truthy]. rewrite lookup_insert_eq, lookup_delete_eq.
    cbn -[from_option truthy]. rewrite Hv. cbn -[from_option].
    by rewrite !lookup_insert_ne, !lookup_delete_ne by done.
  - unfold ContactListsResource._transform_list.
    cbn -[from_option truthy]. rewrite lookup_insert_eq, lookup_delete_eq.
    cbn -[from_option truthy]. rewrite Hv. cbn -[from_option].
    by rewrite !lookup_insert_ne, !lookup_delete_ne by done.
Qed.

Lemma comprehension_Forall2 {A B} (f : A → result B) (xs : list A) (ys : list B) :
  comprehension f xs = inr ys ↔ Forall2 (λ x y, f x = inr y) xs ys.
Proof.
  split.
  - revert ys. induction xs as [|x xs IH]; intros ys H; cbn in H.
    + injection H as <-. constructor.
    + destruct (f x) as [e|y] eqn:Hx; cbn in H; [discriminate H|].
      destruct (comprehension f xs) as [e|ys'] eqn:Hxs; cbn in H; [discriminate H|].
      injection H as <-. constructor; [exact Hx|]. by apply IH.
  - induction 1 as [|x y xs ys Hx _ IH]; cbn; [reflexivity|].
    by rewrite Hx, IH.
Qed.

Lemma comprehension_first_failure {A B} (f : A → result B) (good rest : list A)
    (bad : A) (e : exn) :
  Forall (λ x, ∃ y, f x = inr y) good → f bad = inl e →
  comprehension f (good ++ bad :: rest) = inl e.
Proof.
  intros Hgood Hbad. induction Hgood as [|x good [y Hy] _ IH]; cbn.
  - by rewrite Hbad.
  - by rewrite Hy, IH.
Qed.

Section list_items.
Context {I MF : Type} (dump : I → dict) (init : dict → string + MF).

Ltac to_reshaping :=
  unfold reshaped; cbn [sync]; autounfold with facade; cbv zeta;
  rewrite ?answered_request_then.
Ltac to_reshaping_in H :=
  unfold reshaped in H; cbn [sync] in H; autounfold with facade in H;
  cbv zeta in H; rewrite ?answered_request_then in H.

(** On the answering service, [get] is the reshaping of the answer. *)
Lemma get_is_transform (id : string) (item : value) :
  reshaped dump init (campaigns_get id) item
  = CampaignsResource._transform_campaign item
  ∧ reshaped dump init (contacts_get id) item
    = ContactsResource._transform_contact item
  ∧ reshaped dump init (contact_lists_get id None None) item
    = ContactListsResource._transform_list item.
Proof. by repeat split. Qed.

(** X13. The items of a list result are, in order, what the [get] of the
    same resource returns for each item of the response array: listing
    reshapes an item exactly as fetching it does. *)
Theorem list_items_are_get_results (d : dict) (items : list value) (id : string) :
  (∀ limit offset status r,
     d !! "campaigns" = Some (VList items) →
     reshaped dump init (campaigns_list limit offset status) (VDict d) = inr r →
     Forall2 (λ item c, reshaped dump init (campaigns_get id) item = inr c)
       items (CampaignListResponse.campaigns r))
  ∧ (∀ limit offset search list_id r,
       d !! "contacts" = Some (VList items) →
       reshaped dump init (contacts_list limit offset search list_id) (VDict d)
       = inr r →
       Forall2 (λ item c, reshaped dump init (contacts_get id) item = inr c)
         items (ContactListResponse.contacts r))
  ∧ (∀ r,
       d !! "lists" = Some (VList items) →
       reshaped dump init contact_lists_list (VDict d) = inr r →
       Forall2 (λ item l,
                  reshaped dump init (contact_lists_get id None None) item = inr l)
         items (ContactListsResponse.lists r))
  ∧ (∀ limit status r,
       d !! "verifications" = Some (VList items) →
       reshaped dump init (verify_list limit status) (VDict d) = inr r →
       Forall2 (λ item v, reshaped dump init (verify_get id) item = inr v)
         items (VerificationListResponse.verifications r)).
Proof.
  repeat split; intros;
    match goal with
    | Hd : d !! _ = Some _, Hr : reshaped _ _ _ _ = inr _ |- _ =>
        to_reshaping_in Hr; cbn -[comprehension] in Hr; rewrite Hd in Hr;
        cbn -[comprehension] in Hr; unfold mbind, result_bind in Hr;
        repeat list_step Hr; injection Hr as <-
    end;
    cbn [CampaignListResponse.campaigns ContactListResponse.contacts
         ContactListsResponse.lists VerificationListResponse.verifications];
    by apply comprehension_Forall2.
Qed.

(** X14. One item that cannot be reshaped fails the whole listing: the
    operation raises the exception of the first such item, whatever the
    rest of the response holds. *)
Theorem first_bad_item_fails_the_list (d : dict) (good rest : list value)
    (bad : value) (e : exn) (id : string) :
  (∀ limit offset status,
     d !! "campaigns" = Some (VList (good ++ bad :: rest)) →
     Forall (λ x, ∃ c, reshaped dump init (campaigns_get id) x = inr c) good →
     reshaped dump init (campaigns_get id) bad = inl e →
     reshaped dump init (campaigns_list limit offset status) (VDict d) = inl e)
  ∧ (∀ limit offset search list_id,
       d !! "contacts" = Some (VList (good ++ bad :: rest)) →
       Forall (λ x, ∃ c, reshaped dump init (contacts_get id) x = inr c) good →
       reshaped dump init (contacts_get id) bad = inl e →
       reshaped dump init (contacts_list limit offset search list_id) (VDict d)
       = inl e)
  ∧ (d !! "lists" = Some (VList (good ++ bad :: rest)) →
     Forall (λ x, ∃ l, reshaped dump init (contact_lists_get id None None) x = inr l)
       good →
     reshaped dump init (contact_lists_get id None None) bad = inl e →
     reshaped dump init contact_lists_list (VDict d) = inl e)
  ∧ (∀ limit status,
       d !! "verifications" = Some (VList (good ++ bad :: rest)) →
       Forall (λ x, ∃ v, reshaped dump init (verify_get id) x = inr v) good →
       reshaped dump init (verify_get id) bad = inl e →
       reshaped dump init (verify_list limit status) (VDict d) = inl e).
Proof.
  repeat split; intros;
    match goal with
    | Hd : d !! _ = Some _, Hg : Forall _ good, Hb : reshaped _ _ _ bad = inl _ |- _ =>
        to_reshaping; cbn -[comprehension]; rewrite Hd; cbn -[comprehension];
        erewrite comprehension_first_failure; [reflexivity|exact Hg|exact Hb]
    end.
Qed.

End list_items.

(** X15. A non-empty [lists] array of a contact is rebuilt keeping only
    [id] and [name] of each entry, and a non-empty [contacts] array of a
    contact list keeping only [id], [phone_number], [name] and [email]
    (the last two [None] when the entry lacks them); other keys of an entry
    are dropped. *)
Theorem collections_are_projected (d : dict) (items : list value) :
  items ≠ [] →
  (∀ c, d !! "lists" = Some (VList items) →
        ContactsResource._transform_contact (VDict d) = inr c →
        ∃ built, Contact.lists c = VList built
          ∧ Forall2 (λ item b, ∃ i n,
                       subscr item "id" = inr i ∧ subscr item "name" = inr n
                       ∧ b = VDict {[ "id" := i; "name" := n ]})
              items built)
  ∧ (∀ l, d !! "contacts" = Some (VList items) →
          ContactListsResource._transform_list (VDict d) = inr l →
          ∃ built, ContactList.contacts l = VList built
            ∧ Forall2 (λ item b, ∃ i p n m,
                         subscr item "id" = inr i
                         ∧ subscr item "phone_number" = inr p
                         ∧ dict_get item "name" = inr n
                         ∧ dict_get item "email" = inr m
                         ∧ b = VDict {[ "id" := i; "phone_number" := p;
                                        "name" := n; "email" := m ]})
                items built).
Proof.
  intros Hne. destruct items as [|item0 items]; [done|]. split.
  - intros c Hd Hc. unfold ContactsResource._transform_contact in Hc.
    cbn -[from_option comprehension] in Hc. rewrite Hd in Hc.
    cbn -[from_option comprehension] in Hc. unfold mbind, result_bind in Hc.
    destruct (comprehension _ (item0 :: items)) as [?|built] eqn:Hb in Hc;
      cbn -[from_option comprehension] in Hc; [discriminate Hc|].
    required Hc. injection Hc as <-. exists built. split; [reflexivity|].
    apply comprehension_Forall2 in Hb.
    eapply Forall2_impl; [exact Hb|]. intros item b Hitem. cbn in Hitem.
    destruct (subscr item "id") as [?|i]; cbn in Hitem; [discriminate Hitem|].
    destruct (subscr item "name") as [?|n]; cbn in Hitem; [discriminate Hitem|].
    injection Hitem as <-. by exists i, n.
  - intros l Hd Hl. unfold ContactListsResource._transform_list in Hl.
    cbn -[from_option comprehension] in Hl. rewrite Hd in Hl.
    cbn -[from_option comprehension] in Hl. unfold mbind, result_bind in Hl.
    destruct (comprehension _ (item0 :: items)) as [?|built] eqn:Hb in Hl;
      cbn -[from_option comprehension] in Hl; [discriminate Hl|].
    required Hl. injection Hl as <-. exists built. split; [reflexivity|].
    apply comprehension_Forall2 in Hb.
    eapply Forall2_impl; [exact Hb|]. intros item b Hitem. cbn in Hitem.
    destruct (subscr item "id") as [?|i]; cbn in Hitem; [discriminate Hitem|].
    destruct (subscr item "phone_number") as [?|p]; cbn in Hitem;
      [discriminate Hitem|].
    destruct (dict_get item "name") as [?|n]; cbn in Hitem; [discriminate Hitem|].
    destruct (dict_get item "email") as [?|m]; cbn in Hitem; [discriminate Hitem|].
    injection Hitem as <-. by exists i, p, n, m.
Qed.

Section upload_effects.
Context {I MF : Type} (dump : I → dict) (init : dict → string + MF).
Context {S : Type} (http : Client S).

#[local] Abbreviation upload_post f ct :=
  (mkPost "/media"
     {[ "file" := mkFilePart (default (VStr "upload") (name f)) f
                    (default "image/jpeg" ct) ]}
     {[ "Authorization" := "Bearer " ++ api_key http;
        "Accept" := "application/json";
        "User-Agent" := client_headers_get http "User-Agent" "" ]}).

(** X9. The upload, on any client: an exception of the post propagates
    and nothing else is called; otherwise the rate-limit information is
    updated from the response headers before the response is parsed, so it
    is updated also when parsing raises, and the exception of the parser
    propagates unchanged. *)
Theorem upload_order_of_effects (f : BinaryIO) (ct : option string) (s : S) :
  (∀ e s1,
     client_post http (upload_post f ct) s = (inl e, s1) →
     sync dump init http (media_upload f ct) s = (inl e, s1))
  ∧ (∀ response s1 e s2,
       client_post http (upload_post f ct) s = (inr response, s1) →
       _parse_response http response
         (_update_rate_limit_info http (headers response) s1) = (inl e, s2) →
       sync dump init http (media_upload f ct) s = (inl e, s2))
  ∧ (∀ response s1 data s2,
       client_post http (upload_post f ct) s = (inr response, s1) →
       _parse_response http response
         (_update_rate_limit_info http (headers response) s1) = (inr data, s2) →
       snd (sync dump init http (media_upload f ct) s) = s2).
Proof.
  repeat split; intros; cbn [sync]; unfold MediaResource.upload;
    rewrite M_bind_eq;
    match goal with H : client_post _ _ _ = _ |- _ => rewrite H end;
    try reflexivity;
    rewrite M_bind_eq; cbn [modify]; rewrite M_bind_eq;
    match goal with H : _parse_response _ _ _ = _ |- _ => rewrite H end;
    reflexivity.
Qed.

End upload_effects.

(* ===================================================================== *)
(** ** Concrete inputs for the further properties *)
(* ===================================================================== *)

(** Parsing fails after the post: the three methods ran in this order. *)
Lemma upload_order_of_effects_witness :
  sync no_items no_media (tracing (raise (Remote "api_error" "Server error" 500)))
    (media_upload (mkBinaryIO None []) None) []
  = (inl (Remote "api_error" "Server error" 500),
     ["client.post"; "_update_rate_limit_info"; "_parse_response"]).
Proof.
  apply (proj1 (proj2 (upload_order_of_effects no_items no_media
                         (tracing (raise (Remote "api_error" "Server error" 500)))
                         (mkBinaryIO None []) None []))
           (mkResponse 200 ∅ []) ["client.post"]); reflexivity.
Defined.

(** A check response without [status]. *)
Lemma first_missing_key_raises_witness :
  required_keys (verify_check (ImportContactItem:=Empty_set) (MediaFile:=Empty_set)
                   "ver_1" "123456")
  = Some ["id"; "status"; "phone"]
  ∧ reshaped no_items no_media (verify_check "ver_1" "123456")
      (VDict {[ "id" := VStr "ver_1"; "phone" := VStr "+15551234567" ]})
    = inl (KeyError "status")
  ∧ constructed (λ kw : CheckVerificationResponse.t, inr kw)
      (reshaped no_items no_media (verify_check "ver_1" "123456")
         (VDict {[ "id" := VStr "ver_1"; "phone" := VStr "+15551234567" ]}))
    = inl (KeyError "status").
Proof.
  split; [reflexivity|].
  exact (first_missing_key_raises no_items no_media (verify_check "ver_1" "123456")
           ["id"; "status"; "phone"]
           {[ "id" := VStr "ver_1"; "phone" := VStr "+15551234567" ]}
           (λ kw, inr kw) eq_refl).
Defined.

(** The sample campaign has no [sent_count], [timezone], ... *)
Lemma absent_keys_take_defaults_witness :
  ∃ c : Campaign.t,
    reshaped no_items no_media (campaigns_get "cmp_1") (VDict sample_campaign)
    = inr c
    ∧ Forall (λ '(k, field, dflt),
                sample_campaign !! k = None →
                getattr (Campaign.fields c) field = Some dflt)
        campaign_defaults.
Proof.
  eexists. split; [reflexivity|].
  apply (absent_keys_take_defaults no_items no_media (campaigns_get "cmp_1")
           (mkTyped Campaign.fields []) sample_campaign); reflexivity.
Defined.

(** The service answers with a JSON array. *)
Lemma non_mapping_response_raises_TypeError_witness :
  is_mapping (VList []) = false
  ∧ reshaped no_items no_media (contacts_get "cnt_1") (VList []) = inl TypeError.
Proof.
  split; [reflexivity|].
  exact (non_mapping_response_raises_TypeError no_items no_media
           (contacts_get "cnt_1") (VList []) eq_refl).
Defined.

(** An unknown key next to the campaign's own. *)
Lemma unread_keys_are_ignored_witness :
  ("archived" ∉ ["id"; "name"; "text"; "template_id"; "contact_list_ids"; "status";
                 "recipient_count"; "sent_count"; "delivered_count"; "failed_count";
                 "estimated_credits"; "credits_used"; "scheduled_at"; "timezone";
                 "started_at"; "completed_at"; "created_at"; "updated_at"])
  ∧ reshaped no_items no_media (campaigns_get "cmp_1")
      (VDict (<["archived" := VBool true]> sample_campaign))
    = reshaped no_items no_media (campaigns_get "cmp_1") (VDict sample_campaign).
Proof.
  assert ("archived" ∉ ["id"; "name"; "text"; "template_id"; "contact_list_ids";
                        "status"; "recipient_count"; "sent_count"; "delivered_count";
                        "failed_count"; "estimated_credits"; "credits_used";
                        "scheduled_at"; "timezone"; "started_at"; "completed_at";
                        "created_at"; "updated_at"]) as Hk.
  { rewrite !not_elem_of_cons. repeat split; try discriminate.
    apply not_elem_of_nil. }
  split; [exact Hk|].
  exact (unread_keys_are_ignored no_items no_media (campaigns_get "cmp_1") _
           sample_campaign "archived" (VBool true) eq_refl Hk).
Defined.

(** [lists] bound to [null]. *)
Lemma falsy_collection_is_absent_witness :
  truthy VNone = false
  ∧ ContactsResource._transform_contact (VDict (<["lists" := VNone]> sample_contact))
    = ContactsResource._transform_contact (VDict (delete "lists" sample_contact)).
Proof.
  split; [reflexivity|].
  exact (proj1 (falsy_collection_is_absent sample_contact VNone eq_refl)).
Defined.

(** A page of one campaign. *)
Lemma list_items_are_get_results_witness :
  ∃ r : CampaignListResponse.t,
    reshaped no_items no_media (campaigns_list None None None)
      (VDict sample_campaigns_page) = inr r
    ∧ Forall2 (λ item c,
                 reshaped no_items no_media (campaigns_get "cmp_1") item = inr c)
        [VDict sample_campaign] (CampaignListResponse.campaigns r).
Proof.
  eexists. split; [reflexivity|].
  apply (proj1 (list_items_are_get_results no_items no_media sample_campaigns_page
                  [VDict sample_campaign] "cmp_1") None None None);
    reflexivity.
Defined.

(** A page whose second campaign has no [id]. *)
Lemma first_bad_item_fails_the_list_witness :
  reshaped no_items no_media (campaigns_list None None None)
    (VDict {[ "campaigns" := VList [VDict sample_campaign; VDict ∅] ]})
  = inl (KeyError "id").
Proof.
  apply (proj1 (first_bad_item_fails_the_list no_items no_media
                  {[ "campaigns" := VList [VDict sample_campaign; VDict ∅] ]}
                  [VDict sample_campaign] [] (VDict ∅) (KeyError "id") "cmp_1")
           None None None).
  - reflexivity.
  - apply Forall_cons. split; [by eexists|apply Forall_nil; exact Logic.I].
  - reflexivity.
Defined.

(** A contact in one list, whose entry carries a [contact_count]. *)
Lemma collections_are_projected_witness :
  ∃ c : Contact.t,
    ContactsResource._transform_contact (VDict sample_contact_with_lists) = inr c
    ∧ ∃ built, Contact.lists c = VList built
        ∧ Forall2 (λ item b, ∃ i n,
                     subscr item "id" = inr i ∧ subscr item "name" = inr n
                     ∧ b = VDict {[ "id" := i; "name" := n ]})
            [VDict {[ "id" := VStr "lst_1"; "name" := VStr "VIP";
                      "contact_count" := VInt 7 ]}]
            built.
Proof.
  eexists. split; [reflexivity|].
  apply (proj1 (collections_are_projected sample_contact_with_lists
                  [VDict {[ "id" := VStr "lst_1"; "name" := VStr "VIP";
                            "contact_count" := VInt 7 ]}]
                  ltac:(discriminate))); reflexivity.
Defined.

(* ===================================================================== *)
(** ** Constructor arguments and the objects built from them *)
(* ===================================================================== *)


Section constructor_arguments.
Context {I MF : Type} (dump : I → dict) (init : dict → string + MF).

Ltac to_reshaping_in H :=
  unfold reshaped in H; cbn [sync] in H; autounfold with facade in H;
  cbv zeta in H; rewrite ?answered_request_then in H.




End constructor_arguments.


(** A contact created with an empty name, an email and empty metadata: the
    body has the phone number and the email. *)
Lemma create_tests_truthiness_update_tests_None_witness :
  ∃ verb path,
    wire no_items no_media
      (recorder "sk_test_v1_key" (λ _ dflt, dflt) (λ _, ok (VDict sample_contact))
         (λ _, ok (mkResponse 200 ∅ [])) (λ _, ok (VDict sample_contact)))
      (contacts_create "+15551234567" (Some "") (Some "a@example.com") (Some ∅))
    = [SentRequest
         (mkRequest verb path
            (Some {[ "phone_number" := VStr "+15551234567";
                     "email" := VStr "a@example.com" ]})
            None)].
Proof.
  exact (proj2 (proj2 (proj2 (proj2
           (create_tests_truthiness_update_tests_None no_items no_media
              "sk_test_v1_key" (λ _ dflt, dflt) (λ _, ok (VDict sample_contact))
              (λ _, ok (mkResponse 200 ∅ [])) (λ _, ok (VDict sample_contact))
              "+15551234567" "cnt_1" None None None))))
           _ (contacts_create "+15551234567" (Some "") (Some "a@example.com")
                (Some ∅))
           _ eq_refl).
Defined.
